(** * WireGuard configuration service (backend/modules/wireguard/service.go)

    A shallow embedding of the Go service that keeps the WireGuard servers
    and their clients in one JSON document.  Strings are Go byte strings,
    modelled as [String.string]; Go [int] values are [Z]; the service's
    shared document and its external effects (clock, UUIDs, key generation,
    file writes, interface control) are threaded through a small state and
    error monad. *)

From Stdlib Require Import String Ascii List ZArith Lia Bool.
Import ListNotations.
Open Scope string_scope.
Open Scope Z_scope.

(* ------------------------------------------------------------------ *)
(** ** Go strings: [strings.Split] on a one-byte separator *)

Module GoStr.

(** [strings.Split(s, sep)] for a one-byte [sep]: cut at every occurrence;
    the empty string gives [[""]]. *)
Fixpoint split (sep : ascii) (s : string) : list string :=
  match s with
  | EmptyString => [EmptyString]
  | String c r =>
      if Ascii.eqb c sep then EmptyString :: split sep r
      else match split sep r with
           | x :: xs => String c x :: xs
           | [] => [String c EmptyString]
           end
  end.

(** [strings.Split(s, sep)[0]]: Split never returns an empty slice. *)
Definition split0 (sep : ascii) (s : string) : string :=
  hd EmptyString (split sep s).

(** Whether byte [c] occurs in [s]. *)
Fixpoint has_char (c : ascii) (s : string) : bool :=
  match s with
  | EmptyString => false
  | String d r => Ascii.eqb d c || has_char c r
  end.

End GoStr.

(* ------------------------------------------------------------------ *)
(** ** [fmt] formatting and scanning of integers *)

Module GoFmt.

Definition digit_char (d : Z) : ascii :=
  ascii_of_nat (48 + Z.to_nat d).

Fixpoint dec_aux (fuel : nat) (z : Z) (acc : string) : string :=
  match fuel with
  | O => acc
  | S f =>
      let acc' := String (digit_char (z mod 10)) acc in
      if z / 10 =? 0 then acc' else dec_aux f (z / 10) acc'
  end.

(** The [%d] verb of [fmt.Sprintf] on a Go [int]. *)
Definition itoa (z : Z) : string :=
  let fuel := S (Z.to_nat (Z.log2 (Z.abs z))) in
  if z <? 0 then String "-" (dec_aux fuel (- z) EmptyString)
  else dec_aux fuel z EmptyString.

Definition is_digit (c : ascii) : bool :=
  let n := nat_of_ascii c in (48 <=? n)%nat && (n <=? 57)%nat.

(** Space runes skipped by [fmt]'s scanner ([isSpace]); only the ASCII ones
    are modelled.  A newline is an error for [Sscanf] ("unexpected
    newline"), and ["\r\n"] is treated like ["\n"]. *)
Definition is_space (c : ascii) : bool :=
  let n := nat_of_ascii c in
  (n =? 32)%nat || (n =? 9)%nat || (n =? 11)%nat || (n =? 12)%nat
  || (n =? 13)%nat.

Definition is_newline (c : ascii) : bool := (nat_of_ascii c =? 10)%nat.

(** [SkipSpace]: [None] is the "unexpected newline" error. *)
Fixpoint skip_space (s : string) : option string :=
  match s with
  | EmptyString => Some EmptyString
  | String c r =>
      if is_newline c then None
      else if is_space c then skip_space r
      else Some s
  end.

(** The run of decimal digits at the head of [s], as a value and its
    length. *)
Fixpoint digits (s : string) (acc : Z) (n : nat) : Z * nat :=
  match s with
  | String c r =>
      if is_digit c then digits r (acc * 10 + Z.of_nat (nat_of_ascii c - 48)) (S n)
      else (acc, n)
  | EmptyString => (acc, n)
  end.

Definition int64_min : Z := - 2 ^ 63.
Definition int64_max : Z := 2 ^ 63 - 1.

(** [scanInt] for the verb [d]: optional sign, at least one decimal digit,
    then [strconv.ParseInt(tok, 10, 64)], whose range error is an error of
    the scan.  Input after the number is left unread; [Sscanf] does not
    complain about it. *)
Definition scan_int (s : string) : option Z :=
  match skip_space s with
  | None => None
  | Some EmptyString => None
  | Some t =>
      let '(neg, u) :=
        match t with
        | String c r =>
            if Ascii.eqb c "-" then (true, r)
            else if Ascii.eqb c "+" then (false, r)
            else (false, t)
        | EmptyString => (false, t)
        end in
      let '(v, n) := digits u 0 O in
      if (n =? 0)%nat then None
      else
        let z := if neg then - v else v in
        if (int64_min <=? z) && (z <=? int64_max) then Some z else None
  end.

End GoFmt.

(** [parseInt(s)] is [fmt.Sscanf(s, "%d", &n)]: [Some n] when [err == nil]. *)
Definition parseInt (s : string) : option Z := GoFmt.scan_int s.


(* ------------------------------------------------------------------ *)
(** ** Data model *)

(** Modelled from the spec: the [WireGuardClient] struct (declared in the
    package's types file, not among the sources), with the fields §3 of the
    spec lists.  [time.Time] values are clock readings in [Z]. *)
Record WireGuardClient := mkClient {
  cID : string;
  cName : string;
  cDescription : string;
  cPrivateKey : string;
  cPublicKey : string;
  cPresharedKey : string;
  cAllowedIPs : string;
  cDNS : string;
  cEnabled : bool;
  cCreatedAt : Z
}.

(** Modelled from the spec: the [WireGuardServer] struct, with the fields
    §3 of the spec lists. *)
Record WireGuardServer := mkServer {
  sID : string;
  sTag : string;
  sAddress : string;
  sListenPort : Z;
  sPrivateKey : string;
  sPublicKey : string;
  sMTU : Z;
  sDNS : string;
  sEnabled : bool;
  sCreatedAt : Z;
  sUpdatedAt : Z;
  sClients : list WireGuardClient
}.

(** Modelled from the spec: [WireGuardConfig], the document. *)
Record WireGuardConfig := mkConfig { Servers : list WireGuardServer }.

(** Modelled from the spec: the [KeyPair] returned by [GenerateKeyPair]. *)
Record KeyPair := mkKeyPair { PrivateKey : string; PublicKey : string }.

(* ------------------------------------------------------------------ *)
(** ** [allocateClientIP] (service.go, lines 181-220) *)

Definition option_list {A} (o : option A) : list A :=
  match o with Some x => [x] | None => [] end.

(** The host number of an address: [strings.Split(addr, "/")[0]] cut at the
    dots must give four parts, and the fourth must pass [parseInt]. *)
Definition ip_parts (addr : string) : list string :=
  GoStr.split "." (GoStr.split0 "/" addr).

Definition host_octet (addr : string) : option Z :=
  match ip_parts addr with
  | [_; _; _; p3] => parseInt p3
  | _ => None
  end.

(** The keys of [usedIPs] (lines 193-209): the server's own host number,
    then that of each client's [AllowedIPs], in list order. *)
Definition usedIPs (server : WireGuardServer) : list Z :=
  option_list (host_octet (sAddress server))
  ++ flat_map (fun c => option_list (host_octet (cAllowedIPs c)))
              (sClients server).

(** [usedIPs[i]] on the Go map: a missing key reads as [false]. *)
Definition is_used (used : list Z) (i : Z) : bool := existsb (Z.eqb i) used.

(** [for i := lo; k iterations; i++ { if !usedIPs[i] { return i } }]. *)
Fixpoint first_unused (used : list Z) (i : Z) (k : nat) : option Z :=
  match k with
  | O => None
  | S k' => if is_used used i then first_unused used (i + 1) k' else Some i
  end.

Definition allocateClientIP (server : WireGuardServer) : string :=
  (* baseIP := strings.Split(server.Address, "/")[0];
     parts := strings.Split(baseIP, ".") *)
  match ip_parts (sAddress server) with
  | [p0; p1; p2; _] =>
      let prefix := p0 ++ "." ++ p1 ++ "." ++ p2 in
      (* for i := 2; i <= 254; i++ *)
      match first_unused (usedIPs server) 2 253 with
      | Some i => prefix ++ "." ++ GoFmt.itoa i ++ "/32"
      | None =>
          prefix ++ "." ++ GoFmt.itoa (Z.of_nat (length (sClients server)) + 2)
          ++ "/32"
      end
  | _ => "10.0.0.2/32"
  end.

(* ------------------------------------------------------------------ *)
(** ** Lists as the Go code indexes them *)

(** [for i := range xs { if p(xs[i]) { ... } }]: the first index where [p]
    holds, with its element. *)
Fixpoint find_first {A} (p : A -> bool) (l : list A) : option (nat * A) :=
  match l with
  | [] => None
  | x :: r =>
      if p x then Some (O, x)
      else match find_first p r with
           | Some (i, y) => Some (S i, y)
           | None => None
           end
  end.

(** [xs[i] = x] for an index in range. *)
Fixpoint replace_nth {A} (i : nat) (x : A) (l : list A) : list A :=
  match l, i with
  | [], _ => []
  | _ :: r, O => x :: r
  | y :: r, S i' => y :: replace_nth i' x r
  end.

(** [append(xs[:i], xs[i+1:]...)]. *)
Definition remove_nth {A} (i : nat) (l : list A) : list A :=
  firstn i l ++ skipn (S i) l.

(* ------------------------------------------------------------------ *)
(** ** The service as a state and error monad *)

Inductive GoError :=
| ErrNotFound      (* "服务器不存在", "不存在", "客户端不存在" *)
| ErrKeyGen        (* GenerateKeyPair failed *)
| ErrPresharedKey  (* GeneratePresharedKey failed *)
| ErrWrite         (* saveConfig: MarshalIndent or os.WriteFile failed *)
| ErrRead          (* os.ReadFile failed, not IsNotExist *)
| ErrParse.        (* json.Unmarshal failed *)

Inductive result (A : Type) :=
| Ok (a : A)
| Err (e : GoError).
Arguments Ok {A} a.
Arguments Err {A} e.

(** What the world sees of a run: calls of the interface-control
    collaborator, writes of [s.config.Servers] in memory, and
    [saveConfig] writes of the file (with their outcome). *)
Inductive Event :=
| EvStop (tag : string)
| EvSet (servers : list WireGuardServer)
| EvSave (doc : WireGuardConfig) (ok : bool).

(** The service's state: [s.config], the number of calls made so far to
    the outside world, and the trace. *)
Record St := mkSt {
  config : WireGuardConfig;
  step : nat;
  trace : list Event
}.

(** The outside world, answering its [n]-th call: [time.Now()],
    [uuid.New().String()], [GenerateKeyPair()], [GeneratePresharedKey()]
    ([None] is an error) and whether [saveConfig]'s write succeeds. *)
Record Oracle := mkOracle {
  o_now : nat -> Z;
  o_uuid : nat -> string;
  o_keypair : nat -> option KeyPair;
  o_psk : nat -> option string;
  o_write : nat -> bool
}.

Definition M (A : Type) := St -> result A * St.

Definition ret {A} (a : A) : M A := fun st => (Ok a, st).
Definition fail {A} (e : GoError) : M A := fun st => (Err e, st).
Definition bind {A B} (m : M A) (k : A -> M B) : M B :=
  fun st => match m st with
            | (Ok a, st') => k a st'
            | (Err e, st') => (Err e, st')
            end.

Notation "x <- m ;; k" := (bind m (fun x => k))
  (at level 61, m at next level, right associativity).
Notation "m ;; k" := (bind m (fun _ => k))
  (at level 61, right associativity).

Definition get_servers : M (list WireGuardServer) :=
  fun st => (Ok (Servers (config st)), st).

Definition set_servers (l : list WireGuardServer) : M unit :=
  fun st => (Ok tt, mkSt (mkConfig l) (step st) (trace st ++ [EvSet l])).

Definition emit (ev : Event) : M unit :=
  fun st => (Ok tt, mkSt (config st) (step st) (trace st ++ [ev])).

(** One call to the outside world: its index. *)
Definition tick : M nat :=
  fun st => (Ok (step st), mkSt (config st) (S (step st)) (trace st)).

Section Service.
Variable o : Oracle.

Definition time_now : M Z := n <- tick ;; ret (o_now o n).
Definition uuid_new : M string := n <- tick ;; ret (o_uuid o n).

(** Modelled from the spec: [GenerateKeyPair] (not among the sources), a
    capability that may fail. *)
Definition GenerateKeyPair (e : GoError) : M KeyPair :=
  n <- tick ;;
  match o_keypair o n with Some kp => ret kp | None => fail e end.

(** Modelled from the spec: [GeneratePresharedKey], a capability that may
    fail. *)
Definition GeneratePresharedKey : M string :=
  n <- tick ;;
  match o_psk o n with Some k => ret k | None => fail ErrPresharedKey end.

(** Modelled from the spec: [StopInterface] (not among the sources), the
    interface-control collaborator; the caller ignores its result. *)
Definition StopInterface (tag : string) : M unit := emit (EvStop tag).

(** [saveConfig] (lines 51-57): write the whole document. *)
Definition saveConfig : M unit :=
  fun st =>
    let ok := o_write o (step st) in
    let st' := mkSt (config st) (S (step st)) (trace st ++ [EvSave (config st) ok]) in
    if ok then (Ok tt, st') else (Err ErrWrite, st').

(** [GetServers] (lines 75-79). *)
Definition GetServers : M (list WireGuardServer) := get_servers.

(** [GetServer] (lines 82-91): the first server with that ID.  (Go returns
    a pointer into the slice; the model returns the value it points to at
    the time of the call.) *)
Definition GetServer (id : string) : M WireGuardServer :=
  servers <- get_servers ;;
  match find_first (fun s => String.eqb (sID s) id) servers with
  | Some (_, server) => ret server
  | None => fail ErrNotFound
  end.

Definition default_DNS : string := "1.1.1.1,8.8.8.8".

(** [CreateServer] (lines 94-118); the result is [*server] as the caller
    sees it afterwards. *)
Definition CreateServer (server : WireGuardServer) : M WireGuardServer :=
  keyPair <- GenerateKeyPair ErrKeyGen ;;
  id <- uuid_new ;;
  created <- time_now ;;
  updated <- time_now ;;
  let server :=
    mkServer id (sTag server) (sAddress server) (sListenPort server)
      (PrivateKey keyPair) (PublicKey keyPair)
      (if sMTU server =? 0 then 1420 else sMTU server)
      (if String.eqb (sDNS server) "" then default_DNS else sDNS server)
      (sEnabled server) created updated [] in
  servers <- get_servers ;;
  set_servers (servers ++ [server]) ;;
  saveConfig ;;
  ret server.

(** [DeleteServer] (lines 121-134). *)
Definition DeleteServer (id : string) : M unit :=
  servers <- get_servers ;;
  match find_first (fun s => String.eqb (sID s) id) servers with
  | Some (i, server) =>
      (if sEnabled server then StopInterface (sTag server) else ret tt) ;;
      set_servers (remove_nth i servers) ;;
      saveConfig
  | None => fail ErrNotFound
  end.

Definition with_clients (s : WireGuardServer) (cs : list WireGuardClient) :=
  mkServer (sID s) (sTag s) (sAddress s) (sListenPort s) (sPrivateKey s)
    (sPublicKey s) (sMTU s) (sDNS s) (sEnabled s) (sCreatedAt s)
    (sUpdatedAt s) cs.

(** [AddClient] (lines 137-179); the result is [*client] afterwards. *)
Definition AddClient (serverID : string) (client : WireGuardClient)
  : M WireGuardClient :=
  servers <- get_servers ;;
  match find_first (fun s => String.eqb (sID s) serverID) servers with
  | Some (i, server) =>
      keyPair <- GenerateKeyPair ErrKeyGen ;;
      psk <- GeneratePresharedKey ;;
      id <- uuid_new ;;
      created <- time_now ;;
      let allowed :=
        if String.eqb (cAllowedIPs client) "" then allocateClientIP server
        else cAllowedIPs client in
      let dns :=
        if String.eqb (cDNS client) "" then sDNS server else cDNS client in
      let client :=
        mkClient id (cName client) (cDescription client) (PrivateKey keyPair)
          (PublicKey keyPair) psk allowed dns true created in
      set_servers
        (replace_nth i (with_clients server (sClients server ++ [client])) servers) ;;
      saveConfig ;;
      ret client
  | None => fail ErrNotFound
  end.

(** The nested loops of [DeleteClient] and [UpdateClient]: the first
    server with ID [serverID] that holds a client with ID [clientID]; a
    server with the right ID but no such client is passed over. *)
Fixpoint find_client (serverID clientID : string) (l : list WireGuardServer)
  : option (nat * nat * WireGuardServer * WireGuardClient) :=
  match l with
  | [] => None
  | s :: r =>
      let rest :=
        match find_client serverID clientID r with
        | Some (i, j, s', c) => Some (S i, j, s', c)
        | None => None
        end in
      if String.eqb (sID s) serverID then
        match find_first (fun c => String.eqb (cID c) clientID) (sClients s) with
        | Some (j, c) => Some (O, j, s, c)
        | None => rest
        end
      else rest
  end.

(** [DeleteClient] (lines 230-244). *)
Definition DeleteClient (serverID clientID : string) : M unit :=
  servers <- get_servers ;;
  match find_client serverID clientID servers with
  | Some (i, j, server, _) =>
      set_servers
        (replace_nth i (with_clients server (remove_nth j (sClients server))) servers) ;;
      saveConfig
  | None => fail ErrNotFound
  end.

(** [UpdateServer] (lines 247-263): [*server] with the stored keys, client
    list and creation time, and a new [UpdatedAt], replaces the stored
    server. *)
Definition UpdateServer (server : WireGuardServer) : M unit :=
  servers <- get_servers ;;
  match find_first (fun s => String.eqb (sID s) (sID server)) servers with
  | Some (i, old) =>
      updated <- time_now ;;
      let server :=
        mkServer (sID server) (sTag server) (sAddress server)
          (sListenPort server) (sPrivateKey old) (sPublicKey old)
          (sMTU server) (sDNS server) (sEnabled server) (sCreatedAt old)
          updated (sClients old) in
      set_servers (replace_nth i server servers) ;;
      saveConfig
  | None => fail ErrNotFound
  end.

(** [UpdateClient] (lines 266-288); the result is the copy taken after the
    save. *)
Definition UpdateClient (serverID clientID name description : string)
  (enabled : bool) : M WireGuardClient :=
  servers <- get_servers ;;
  match find_client serverID clientID servers with
  | Some (i, j, server, c) =>
      let c :=
        mkClient (cID c) (if String.eqb name "" then cName c else name)
          description (cPrivateKey c) (cPublicKey c) (cPresharedKey c)
          (cAllowedIPs c) (cDNS c) enabled (cCreatedAt c) in
      set_servers
        (replace_nth i (with_clients server (replace_nth j c (sClients server)))
           servers) ;;
      saveConfig ;;
      ret c
  | None => fail ErrNotFound
  end.

(** The six mutating operations, with their results dropped. *)
Inductive Op :=
| OpCreateServer (server : WireGuardServer)
| OpUpdateServer (server : WireGuardServer)
| OpDeleteServer (id : string)
| OpAddClient (serverID : string) (client : WireGuardClient)
| OpUpdateClient (serverID clientID name description : string) (enabled : bool)
| OpDeleteClient (serverID clientID : string).

Definition run_op (op : Op) : M unit :=
  match op with
  | OpCreateServer s => CreateServer s ;; ret tt
  | OpUpdateServer s => UpdateServer s
  | OpDeleteServer id => DeleteServer id
  | OpAddClient sid c => AddClient sid c ;; ret tt
  | OpUpdateClient sid cid n d e => UpdateClient sid cid n d e ;; ret tt
  | OpDeleteClient sid cid => DeleteClient sid cid
  end.

End Service.

(* ------------------------------------------------------------------ *)
(** ** Construction: [NewService] and [loadConfig] (lines 28-49) *)

(** [os.ReadFile(s.configPath)]. *)
Inductive ReadResult :=
| ReadData (data : string)
| ReadNotExist
| ReadFailed.

Record Service := mkService {
  dataDir : string;
  configPath : string;
  svc_config : WireGuardConfig
}.

Section Load.
(** [json.Unmarshal(data, &s.config)]: the value left in [s.config] and
    whether the call returned [nil]. *)
Variable json_Unmarshal : string -> WireGuardConfig -> WireGuardConfig * bool.

Definition loadConfig (rd : ReadResult) (c : WireGuardConfig)
  : WireGuardConfig * option GoError :=
  match rd with
  | ReadNotExist => (mkConfig [], None)
  | ReadFailed => (c, Some ErrRead)
  | ReadData data =>
      let '(c', ok) := json_Unmarshal data c in
      (c', if ok then None else Some ErrParse)
  end.

(** [NewService]: [s.loadConfig()] is called as a statement, so its error
    is dropped.  ([filepath.Join]'s path cleaning is not modelled.) *)
Definition NewService (dir : string) (rd : ReadResult) : Service :=
  let s := mkService dir (dir ++ "/wireguard.json") (mkConfig []) in
  let '(c, _) := loadConfig rd (svc_config s) in
  mkService (dataDir s) (configPath s) c.

End Load.

(** The monad's state of a freshly constructed service. *)
Definition start (s : Service) : St := mkSt (svc_config s) O [].

(* ------------------------------------------------------------------ *)
(** ** Notions the properties are stated with *)

(** The client [AddClient] appends, from the key pair, the preshared key,
    the UUID and the clock reading. *)
Definition added_client (server : WireGuardServer) (client : WireGuardClient)
  (kp : KeyPair) (psk id : string) (created : Z) : WireGuardClient :=
  mkClient id (cName client) (cDescription client) (PrivateKey kp)
    (PublicKey kp) psk
    (if String.eqb (cAllowedIPs client) "" then allocateClientIP server
     else cAllowedIPs client)
    (if String.eqb (cDNS client) "" then sDNS server else cDNS client)
    true created.

(** Distinct server IDs, and distinct client IDs within each server. *)
Definition ids_distinct (c : WireGuardConfig) : Prop :=
  NoDup (map sID (Servers c)) /\
  Forall (fun s => NoDup (map cID (sClients s))) (Servers c).

(** Whether [s] begins with a decimal digit: the scanner reads on then. *)
Definition starts_with_digit (s : string) : bool :=
  match s with
  | String c _ => GoFmt.is_digit c
  | EmptyString => false
  end.

(* ------------------------------------------------------------------ *)
(** ** Sample values and runs *)

Definition client0 (ip : string) : WireGuardClient :=
  mkClient "c" "n" "" "" "" "" ip "" true 0.
Definition server0 (addr : string) (cs : list WireGuardClient) : WireGuardServer :=
  mkServer "s" "wg0" addr 51820 "" "" 1420 "" true 0 0 cs.

(** A world whose clock advances by one at every call, whose generators
    succeed and whose writes succeed ([ok = true]) or fail. *)
Definition world (ok : bool) : Oracle :=
  mkOracle (fun n => Z.of_nat n) (fun n => "id" ++ GoFmt.itoa (Z.of_nat n))
    (fun n => Some (mkKeyPair ("priv" ++ GoFmt.itoa (Z.of_nat n))
                              ("pub" ++ GoFmt.itoa (Z.of_nat n))))
    (fun n => Some ("psk" ++ GoFmt.itoa (Z.of_nat n))) (fun _ => ok).

Definition empty_st : St := mkSt (mkConfig []) O [].

(** One stored, enabled server with one client. *)
Definition srvA : WireGuardServer :=
  mkServer "A" "wg0" "10.0.0.1/24" 51820 "privA" "pubA" 1420 "1.1.1.1" true 5 5
    [mkClient "c1" "laptop" "home" "cpriv" "cpub" "psk" "10.0.0.2/32" "" true 5].
Definition stA : St := mkSt (mkConfig [srvA]) O [].

(** A second, disabled server with two clients, after [srvA]. *)
Definition cb1 : WireGuardClient :=
  mkClient "b1" "phone" "" "bpriv1" "bpub1" "bpsk1" "10.1.0.2/32" "" true 6.
Definition cb2 : WireGuardClient :=
  mkClient "b2" "tablet" "" "bpriv2" "bpub2" "bpsk2" "10.1.0.3/32" "" true 6.
Definition srvB : WireGuardServer :=
  mkServer "B" "wg1" "10.1.0.1/24" 51821 "privB" "pubB" 1420 "" false 6 6 [cb1; cb2].
Definition stB : St := mkSt (mkConfig [srvA; srvB]) O [].

(** An update draft for [srvA] carrying other keys, times and clients. *)
Definition draftA : WireGuardServer :=
  mkServer "A" "wg1" "10.9.0.1/24" 51821 "other-priv" "other-pub" 0 "" false 99 99
    [client0 "10.9.0.7/32"].

(** A server whose host numbers 2 to 254 are all taken by its clients. *)
Definition full_server : WireGuardServer :=
  server0 "10.0.0.1/24"
    (map (fun k => client0 ("10.0.0." ++ GoFmt.itoa (Z.of_nat k + 2) ++ "/32"))
       (seq 0 253)).

(** [json.Unmarshal] on input that is not JSON: a syntax error, found
    before anything is stored. *)
Definition unmarshal_syntax_error (data : string) (c : WireGuardConfig)
  : WireGuardConfig * bool := (c, false).

(* ================================================================== *)
(** * Properties *)

Example parseInt_plain : parseInt "42" = Some 42.
Proof. reflexivity. Qed.
Example parseInt_trailing : parseInt "7abc" = Some 7.
Proof. reflexivity. Qed.
Example parseInt_bad : parseInt "x" = None.
Proof. reflexivity. Qed.
Example itoa_254 : GoFmt.itoa 254 = "254".
Proof. reflexivity. Qed.
Example alloc_first : allocateClientIP (server0 "10.0.0.1/24" []) = "10.0.0.2/32".
Proof. reflexivity. Qed.
Example alloc_skip :
  allocateClientIP (server0 "10.0.0.1/24" [client0 "10.0.0.2/32"; client0 "10.0.0.4/32"])
  = "10.0.0.3/32".
Proof. reflexivity. Qed.
Example alloc_bad_addr : allocateClientIP (server0 "fe80::1/64" []) = "10.0.0.2/32".
Proof. reflexivity. Qed.

Example run_create_add :
  let '(r1, st1) := CreateServer (world true) (server0 "10.0.0.1/24" []) empty_st in
  let '(r2, st2) := AddClient (world true) "id1" (client0 "") st1 in
  match r2 with Ok c => cAllowedIPs c | Err _ => "" end = "10.0.0.2/32".
Proof. vm_compute. reflexivity. Qed.

Example run_create_timestamps :
  fst (CreateServer (world true) (server0 "10.0.0.1/24" []) empty_st)
  = Ok (mkServer "id1" "wg0" "10.0.0.1/24" 51820 "priv0" "pub0" 1420 "1.1.1.1,8.8.8.8"
          true 2 3 []).
Proof. vm_compute. reflexivity. Qed.

(* ------------------------------------------------------------------ *)
(** ** Strings: splitting a concatenation *)

Module StrFacts.
Import GoStr.

Lemma app_assoc_str (a b c : string) : (a ++ b) ++ c = a ++ (b ++ c).
Proof. induction a as [|x a IH]; simpl; [reflexivity | now rewrite IH]. Qed.

Lemma has_char_app (d : ascii) (a b : string) :
  has_char d (a ++ b) = has_char d a || has_char d b.
Proof.
  induction a as [|x a IH]; simpl; [reflexivity|].
  now rewrite IH, orb_assoc.
Qed.

Lemma split_no_sep (sep : ascii) (a : string) :
  has_char sep a = false -> split sep a = [a].
Proof.
  induction a as [|x a IH]; simpl; [reflexivity|].
  intros H; apply orb_false_iff in H as [Hx Ha].
  rewrite Hx, IH by exact Ha; reflexivity.
Qed.

Lemma split_at_sep (sep : ascii) (a b : string) :
  has_char sep a = false -> split sep (a ++ String sep b) = a :: split sep b.
Proof.
  induction a as [|x a IH]; simpl; intros H.
  - now rewrite Ascii.eqb_refl.
  - apply orb_false_iff in H as [Hx Ha].
    rewrite Hx, IH by exact Ha; reflexivity.
Qed.

Lemma split_not_nil (sep : ascii) (s : string) : split sep s <> [].
Proof.
  destruct s as [|x s]; simpl; [discriminate|].
  destruct (Ascii.eqb x sep); [discriminate|].
  destruct (split sep s); discriminate.
Qed.

(** Every piece of [split sep s] lacks [sep], and lacks any byte [s]
    lacks. *)
Lemma split_pieces (sep d : ascii) (s x : string) :
  In x (split sep s) ->
  has_char sep x = false /\ (has_char d s = false -> has_char d x = false).
Proof.
  revert x; induction s as [|c s IH]; simpl; intros x Hin.
  - destruct Hin as [<-|[]]; split; reflexivity.
  - destruct (Ascii.eqb c sep) eqn:Ec.
    + destruct Hin as [<-|Hin]; [split; reflexivity|].
      destruct (IH x Hin) as [H1 H2]; split; [exact H1|].
      intros Hd; apply orb_false_iff in Hd as [_ Hd]; auto.
    + destruct (split sep s) as [|y ys] eqn:Es; [now destruct (split_not_nil sep s)|].
      destruct Hin as [<-|Hin].
      * destruct (IH y (or_introl eq_refl)) as [H1 H2]; simpl; split.
        -- now rewrite Ec, H1.
        -- intros Hd; apply orb_false_iff in Hd as [Hd1 Hd2]; now rewrite Hd1, H2.
      * destruct (IH x (or_intror Hin)) as [H1 H2]; split; [exact H1|].
        intros Hd; apply orb_false_iff in Hd as [_ Hd]; auto.
Qed.

Lemma split0_in (sep : ascii) (s : string) : In (split0 sep s) (split sep s).
Proof.
  unfold split0; destruct (split sep s) eqn:E; [now destruct (split_not_nil sep s)|].
  now left.
Qed.

End StrFacts.

(** The digits [fmt] prints hold no dot and no slash. *)
Lemma digit_char_not (d : ascii) (z : Z) :
  (nat_of_ascii d < 48)%nat -> Ascii.eqb (GoFmt.digit_char (z mod 10)) d = false.
Proof.
  intros Hd; unfold GoFmt.digit_char.
  assert (Hr : 0 <= z mod 10 < 10) by (apply Z.mod_pos_bound; lia).
  apply Ascii.eqb_neq; intros Heq.
  assert (Hn : nat_of_ascii (ascii_of_nat (48 + Z.to_nat (z mod 10))) = (48 + Z.to_nat (z mod 10))%nat).
  { apply nat_ascii_embedding; lia. }
  rewrite Heq in Hn; lia.
Qed.

Lemma dec_aux_no_char (d : ascii) (fuel : nat) (z : Z) (acc : string) :
  (nat_of_ascii d < 48)%nat -> GoStr.has_char d acc = false ->
  GoStr.has_char d (GoFmt.dec_aux fuel z acc) = false.
Proof.
  revert z acc; induction fuel as [|f IH]; intros z acc Hd Hacc; simpl; [exact Hacc|].
  assert (Hs : GoStr.has_char d (String (GoFmt.digit_char (z mod 10)) acc) = false).
  { cbn [GoStr.has_char]; now rewrite digit_char_not, Hacc. }
  destruct (z / 10 =? 0); [exact Hs | now apply IH].
Qed.

Lemma itoa_no_char (d : ascii) (z : Z) :
  (nat_of_ascii d < 48)%nat -> (nat_of_ascii d <> 45)%nat ->
  GoStr.has_char d (GoFmt.itoa z) = false.
Proof.
  intros Hd Hm; unfold GoFmt.itoa.
  destruct (z <? 0).
  - cbn [GoStr.has_char]. apply orb_false_iff; split.
    + apply Ascii.eqb_neq; intros <-; apply Hm; reflexivity.
    + now apply dec_aux_no_char.
  - now apply dec_aux_no_char.
Qed.

(* ------------------------------------------------------------------ *)
(** ** The allocator *)

Lemma is_used_In (used : list Z) (n : Z) : is_used used n = true <-> In n used.
Proof.
  unfold is_used; rewrite existsb_exists; split.
  - intros (x & Hx & Heq); apply Z.eqb_eq in Heq; now subst.
  - intros H; exists n; split; [exact H | apply Z.eqb_refl].
Qed.

Lemma first_unused_some (used : list Z) (k : nat) : forall i n,
  first_unused used i k = Some n ->
  i <= n < i + Z.of_nat k /\ is_used used n = false.
Proof.
  induction k as [|k IH]; intros i n H; cbn [first_unused] in H; [discriminate|].
  rewrite Nat2Z.inj_succ.
  destruct (is_used used i) eqn:Ei.
  - destruct (IH _ _ H) as [Hr Hu]; split; [lia | exact Hu].
  - injection H as <-; split; [lia | exact Ei].
Qed.

Lemma first_unused_none (used : list Z) (k : nat) : forall i,
  first_unused used i k = None ->
  forall n, i <= n < i + Z.of_nat k -> is_used used n = true.
Proof.
  induction k as [|k IH]; intros i H n Hn; cbn [first_unused] in H; [lia|].
  rewrite Nat2Z.inj_succ in Hn.
  destruct (is_used used i) eqn:Ei; [|discriminate].
  destruct (Z.eq_dec n i) as [->|Hne]; [exact Ei|].
  apply (IH (i + 1)); [exact H | lia].
Qed.

Lemma usedIPs_server (server : WireGuardServer) (n : Z) :
  host_octet (sAddress server) = Some n -> In n (usedIPs server).
Proof. intros H; unfold usedIPs; rewrite H; now left. Qed.

Lemma usedIPs_client (server : WireGuardServer) (c : WireGuardClient) (n : Z) :
  In c (sClients server) -> host_octet (cAllowedIPs c) = Some n ->
  In n (usedIPs server).
Proof.
  intros Hc H; unfold usedIPs; apply in_or_app; right.
  apply in_flat_map; exists c; split; [exact Hc|]; rewrite H; now left.
Qed.

(** A free host number in [[2,254]] is found by the scan. *)
Lemma allocate_scan (server : WireGuardServer) (p0 p1 p2 p3 : string) :
  ip_parts (sAddress server) = [p0; p1; p2; p3] ->
  (exists n, 2 <= n <= 254 /\ ~ In n (usedIPs server)) ->
  exists N, 2 <= N <= 254 /\ ~ In N (usedIPs server) /\
    allocateClientIP server
    = p0 ++ "." ++ p1 ++ "." ++ p2 ++ "." ++ GoFmt.itoa N ++ "/32".
Proof.
  intros Hp (n & Hn & Hfree); unfold allocateClientIP; rewrite Hp.
  destruct (first_unused (usedIPs server) 2 253) as [N|] eqn:Hf.
  - apply first_unused_some in Hf as [HN Hu]; exists N; repeat split; try lia.
    + intros HI; apply is_used_In in HI; congruence.
    + now rewrite <- !StrFacts.app_assoc_str.
  - exfalso; apply Hfree, is_used_In, (first_unused_none _ 253 2 Hf); lia.
Qed.

(** Every address the allocator returns has four dot-separated parts. *)
Lemma allocate_four_parts (server : WireGuardServer) :
  length (ip_parts (allocateClientIP server)) = 4%nat.
Proof.
  unfold allocateClientIP.
  destruct (ip_parts (sAddress server)) as [|p0 [|p1 [|p2 [|p3 [|? ?]]]]] eqn:Hp;
    try reflexivity.
  assert (Hpieces : forall x, In x [p0; p1; p2; p3] ->
            GoStr.has_char "." x = false /\ GoStr.has_char "/" x = false).
  { intros x Hx; rewrite <- Hp in Hx; unfold ip_parts in Hx.
    destruct (StrFacts.split_pieces "." "/" _ x Hx) as [H1 H2]; split; [exact H1|].
    apply H2.
    exact (proj1 (StrFacts.split_pieces "/" "/" _ _
                    (StrFacts.split0_in "/" (sAddress server)))). }
  destruct (Hpieces p0) as [D0 S0]; [simpl; tauto|].
  destruct (Hpieces p1) as [D1 S1]; [simpl; tauto|].
  destruct (Hpieces p2) as [D2 S2]; [simpl; tauto|].
  set (fmt := fun d : Z =>
    (p0 ++ "." ++ p1 ++ "." ++ p2) ++ "." ++ GoFmt.itoa d ++ "/32").
  assert (Hfmt : forall d, length (ip_parts (fmt d)) = 4%nat).
  { intros d.
    assert (Dd : GoStr.has_char "." (GoFmt.itoa d) = false)
      by (apply itoa_no_char; [apply Nat.ltb_lt | apply Nat.eqb_neq]; reflexivity).
    assert (Sd : GoStr.has_char "/" (GoFmt.itoa d) = false)
      by (apply itoa_no_char; [apply Nat.ltb_lt | apply Nat.eqb_neq]; reflexivity).
    set (base := p0 ++ String "." (p1 ++ String "." (p2 ++ String "." (GoFmt.itoa d)))).
    assert (Hb : fmt d = base ++ String "/" (String "3" (String "2" EmptyString))).
    { unfold fmt, base; cbn [String.append].
      repeat (rewrite StrFacts.app_assoc_str; cbn [String.append]); reflexivity. }
    assert (Sb : GoStr.has_char "/" base = false).
    { unfold base.
      repeat (rewrite StrFacts.has_char_app; cbn [GoStr.has_char]).
      rewrite S0, S1, S2, Sd; reflexivity. }
    unfold ip_parts, GoStr.split0; rewrite Hb, StrFacts.split_at_sep by exact Sb.
    simpl hd; unfold base.
    rewrite StrFacts.split_at_sep by exact D0.
    rewrite StrFacts.split_at_sep by exact D1.
    rewrite StrFacts.split_at_sep by exact D2.
    rewrite StrFacts.split_no_sep by exact Dd; reflexivity. }
  destruct (first_unused (usedIPs server) 2 253); [apply (Hfmt z) | apply Hfmt].
Qed.

(* ------------------------------------------------------------------ *)
(** ** Lookups by ID *)

Lemma find_first_nodup {A} (f : A -> string) (l : list A) : forall i x,
  NoDup (map f l) -> nth_error l i = Some x ->
  find_first (fun y => String.eqb (f y) (f x)) l = Some (i, x).
Proof.
  induction l as [|a r IH]; intros i x Hnd Hi; [destruct i; discriminate|].
  inversion Hnd as [|? ? Hnotin Hnd']; subst.
  destruct i as [|i]; simpl in Hi |- *.
  - injection Hi as <-; now rewrite String.eqb_refl.
  - assert (Hne : String.eqb (f a) (f x) = false).
    { apply String.eqb_neq; intros Heq; apply Hnotin; rewrite Heq.
      apply in_map, (nth_error_In r i), Hi. }
    now rewrite Hne, (IH i x Hnd' Hi).
Qed.

Lemma find_first_absent {A} (f : A -> string) (l : list A) (k : string) :
  ~ In k (map f l) -> find_first (fun y => String.eqb (f y) k) l = None.
Proof.
  induction l as [|a r IH]; simpl; intros Hk; [reflexivity|].
  destruct (String.eqb_spec (f a) k) as [Heq|_]; [tauto|].
  now rewrite IH by tauto.
Qed.

(* ------------------------------------------------------------------ *)
(** ** Failed writes *)

(** The same world, except that every file write succeeds or fails as [b]
    says. *)
Definition with_write (o : Oracle) (b : bool) : Oracle :=
  mkOracle (o_now o) (o_uuid o) (o_keypair o) (o_psk o) (fun _ => b).

Ltac unfold_service :=
  unfold run_op, CreateServer, UpdateServer, DeleteServer, AddClient,
    UpdateClient, DeleteClient, StopInterface, GenerateKeyPair,
    GeneratePresharedKey, saveConfig, time_now, uuid_new, tick, emit,
    get_servers, set_servers, bind, ret, fail in *;
  cbn -[allocateClientIP replace_nth remove_nth find_first find_client] in *.

Ltac split_matches :=
  repeat match goal with
         | |- context [match ?x with _ => _ end] =>
             lazymatch x with
             | context [match _ with _ => _ end] => fail
             | _ => destruct x eqn:?
             end
         end.

(** C1, as stated, fails: a [CreateServer] whose write fails returns
    [ErrWrite] and leaves the new server in the in-memory document. *)
Lemma C1_create_write_fails_keeps_server :
  let '(r, st') := CreateServer (world false) (server0 "10.0.0.1/24" []) empty_st in
  r = Err ErrWrite /\ config st' <> config empty_st.
Proof. vm_compute. split; [reflexivity | discriminate]. Qed.

(** C1 (amended).  For each of the six mutating operations, a failing
    write of the document is returned to the caller as [ErrWrite], but the
    in-memory document is the one the operation leaves when the write
    succeeds: the mutation is kept, not rolled back. *)
Theorem save_failure_keeps_mutation (o : Oracle) (op : Op) (st : St) :
  config (snd (run_op (with_write o false) op st))
  = config (snd (run_op (with_write o true) op st)) /\
  (fst (run_op (with_write o true) op st) = Ok tt ->
   fst (run_op (with_write o false) op st) = Err ErrWrite).
Proof.
  destruct op; unfold_service; split_matches; cbn in *; split; congruence.
Qed.

(* ------------------------------------------------------------------ *)
(** ** [UpdateServer] and [CreateServer] *)

Lemma nth_error_replace_nth {A} (l : list A) : forall i x y,
  nth_error l i = Some y -> nth_error (replace_nth i x l) i = Some x.
Proof.
  induction l as [|a r IH]; intros [|i] x y H; simpl in *; try discriminate;
    [reflexivity | exact (IH i x y H)].
Qed.

(** The server [UpdateServer] stores in place of [old]. *)
Definition updated_server (draft old : WireGuardServer) (now : Z) :=
  mkServer (sID draft) (sTag draft) (sAddress draft) (sListenPort draft)
    (sPrivateKey old) (sPublicKey old) (sMTU draft) (sDNS draft)
    (sEnabled draft) (sCreatedAt old) now (sClients old).

Lemma UpdateServer_spec (o : Oracle) (st : St) (draft old : WireGuardServer)
  (i : nat) :
  NoDup (map sID (Servers (config st))) ->
  nth_error (Servers (config st)) i = Some old -> sID old = sID draft ->
  let '(r, st') := UpdateServer o draft st in
  Servers (config st')
  = replace_nth i (updated_server draft old (o_now o (step st)))
      (Servers (config st)) /\
  r = (if o_write o (S (step st)) then Ok tt else Err ErrWrite).
Proof.
  intros Hnd Hi Hid.
  pose proof (find_first_nodup sID _ i old Hnd Hi) as Hf; rewrite Hid in Hf.
  unfold_service; rewrite Hf; cbn.
  destruct (o_write o (S (step st))); split; reflexivity.
Qed.

(** The server [CreateServer] appends, from the key pair, the UUID and the
    two clock readings. *)
Definition created_server (draft : WireGuardServer) (kp : KeyPair)
  (id : string) (created updated : Z) :=
  mkServer id (sTag draft) (sAddress draft) (sListenPort draft)
    (PrivateKey kp) (PublicKey kp)
    (if sMTU draft =? 0 then 1420 else sMTU draft)
    (if String.eqb (sDNS draft) "" then default_DNS else sDNS draft)
    (sEnabled draft) created updated [].

Lemma CreateServer_spec (o : Oracle) (st : St) (draft : WireGuardServer)
  (kp : KeyPair) :
  o_keypair o (step st) = Some kp ->
  let n := step st in
  let sv := created_server draft kp (o_uuid o (S n)) (o_now o (S (S n)))
              (o_now o (S (S (S n)))) in
  let '(r, st') := CreateServer o draft st in
  Servers (config st') = (Servers (config st) ++ [sv])%list /\
  r = (if o_write o (S (S (S (S n)))) then Ok sv else Err ErrWrite).
Proof.
  intros Hkp; unfold_service; rewrite Hkp; cbn.
  destruct (o_write o (S (S (S (S (step st)))))); split; reflexivity.
Qed.

(** C3.  [UpdateServer] on a stored server keeps its private key, public
    key, creation time and client list whatever the draft holds, takes ID,
    tag, address, port, MTU, DNS and enabled flag from the draft, and
    stamps [UpdatedAt] with the clock reading of the call. *)
Theorem UpdateServer_preserves_identity (o : Oracle) (st : St)
  (draft old : WireGuardServer) (i : nat) :
  NoDup (map sID (Servers (config st))) ->
  nth_error (Servers (config st)) i = Some old -> sID old = sID draft ->
  exists sv,
    nth_error (Servers (config (snd (UpdateServer o draft st)))) i = Some sv /\
    sPrivateKey sv = sPrivateKey old /\ sPublicKey sv = sPublicKey old /\
    sCreatedAt sv = sCreatedAt old /\ sClients sv = sClients old /\
    sID sv = sID draft /\ sTag sv = sTag draft /\
    sAddress sv = sAddress draft /\ sListenPort sv = sListenPort draft /\
    sMTU sv = sMTU draft /\ sDNS sv = sDNS draft /\
    sEnabled sv = sEnabled draft /\ sUpdatedAt sv = o_now o (step st).
Proof.
  intros Hnd Hi Hid.
  pose proof (UpdateServer_spec o st draft old i Hnd Hi Hid) as Hs.
  destruct (UpdateServer o draft st) as [r st']; destruct Hs as [Hsv _]; cbn.
  exists (updated_server draft old (o_now o (step st))); rewrite Hsv.
  split; [exact (nth_error_replace_nth _ i _ old Hi)|].
  repeat split.
Qed.

(** C10.  [UpdateServer] stores the draft's MTU and DNS as they are, so a
    draft with MTU 0 and empty DNS stores 0 and [""]; [CreateServer] on such
    a draft stores 1420 and ["1.1.1.1,8.8.8.8"]. *)
Theorem UpdateServer_no_defaults (o : Oracle) (st : St)
  (draft old : WireGuardServer) (i : nat) :
  NoDup (map sID (Servers (config st))) ->
  nth_error (Servers (config st)) i = Some old -> sID old = sID draft ->
  (exists sv,
     nth_error (Servers (config (snd (UpdateServer o draft st)))) i = Some sv /\
     sMTU sv = sMTU draft /\ sDNS sv = sDNS draft) /\
  (sMTU draft = 0 -> sDNS draft = "" ->
   o_keypair o (step st) <> None ->
   exists sv,
     Servers (config (snd (CreateServer o draft st)))
     = (Servers (config st) ++ [sv])%list /\
     sMTU sv = 1420 /\ sDNS sv = "1.1.1.1,8.8.8.8").
Proof.
  intros Hnd Hi Hid; split.
  - pose proof (UpdateServer_spec o st draft old i Hnd Hi Hid) as Hs.
    destruct (UpdateServer o draft st) as [r st']; destruct Hs as [Hsv _]; cbn.
    exists (updated_server draft old (o_now o (step st))); rewrite Hsv.
    split; [exact (nth_error_replace_nth _ i _ old Hi) | split; reflexivity].
  - intros Hm Hd Hk.
    destruct (o_keypair o (step st)) as [kp|] eqn:Hkp; [|congruence].
    pose proof (CreateServer_spec o st draft kp Hkp) as Hs; cbn zeta in Hs.
    destruct (CreateServer o draft st) as [r st']; destruct Hs as [Hsv _]; cbn.
    eexists; split; [exact Hsv|]; cbn; rewrite Hm, Hd; split; reflexivity.
Qed.

(** C8, as stated, fails: the two clock readings of [CreateServer] give
    different [CreatedAt] and [UpdatedAt] when the clock advances between
    them. *)
Lemma C8_timestamps_differ :
  let '(r, _) := CreateServer (world true) (server0 "10.0.0.1/24" []) empty_st in
  exists sv, r = Ok sv /\ sCreatedAt sv <> sUpdatedAt sv.
Proof. vm_compute. eexists; split; [reflexivity | discriminate]. Qed.

Lemma NoDup_snoc {A} (l : list A) (a : A) :
  NoDup l -> ~ In a l -> NoDup (l ++ [a]).
Proof.
  induction 1 as [|x l Hx Hnd IH]; simpl; intros Ha.
  - constructor; [tauto | constructor].
  - constructor.
    + rewrite in_app_iff; simpl; intuition.
    + apply IH; tauto.
Qed.

(** C8 (amended).  When key generation succeeds, [CreateServer] appends
    and (if the write succeeds) returns a server whose ID is the new UUID,
    whose keys are the generated pair, whose [CreatedAt] and [UpdatedAt]
    are two successive clock readings (equal only when the clock did not
    advance), with no clients, MTU 1420 when the draft's is 0 and DNS
    ["1.1.1.1,8.8.8.8"] when the draft's is empty (the draft's values
    otherwise); the server IDs stay distinct when the UUID is new. *)
Theorem CreateServer_fills_server (o : Oracle) (st : St) (draft : WireGuardServer)
  (kp : KeyPair) :
  o_keypair o (step st) = Some kp ->
  let n := step st in
  exists sv,
    Servers (config (snd (CreateServer o draft st)))
    = (Servers (config st) ++ [sv])%list /\
    fst (CreateServer o draft st)
    = (if o_write o (S (S (S (S n)))) then Ok sv else Err ErrWrite) /\
    sID sv = o_uuid o (S n) /\
    sPrivateKey sv = PrivateKey kp /\ sPublicKey sv = PublicKey kp /\
    sCreatedAt sv = o_now o (S (S n)) /\
    sUpdatedAt sv = o_now o (S (S (S n))) /\
    sClients sv = [] /\
    sMTU sv = (if sMTU draft =? 0 then 1420 else sMTU draft) /\
    sDNS sv = (if String.eqb (sDNS draft) "" then "1.1.1.1,8.8.8.8"
               else sDNS draft) /\
    (NoDup (map sID (Servers (config st))) ->
     ~ In (o_uuid o (S n)) (map sID (Servers (config st))) ->
     NoDup (map sID (Servers (config (snd (CreateServer o draft st)))))).
Proof.
  intros Hkp n.
  pose proof (CreateServer_spec o st draft kp Hkp) as Hs; cbn zeta in Hs.
  destruct (CreateServer o draft st) as [r st']; destruct Hs as [Hsv Hr]; cbn.
  eexists; split; [exact Hsv|]; split; [exact Hr|].
  repeat split.
  intros Hnd Hnew; rewrite Hsv, map_app; cbn.
  now apply NoDup_snoc.
Qed.

(* ------------------------------------------------------------------ *)
(** ** [DeleteServer] *)

Lemma remove_nth_split {A} (l1 l2 : list A) (a : A) :
  remove_nth (length l1) (l1 ++ a :: l2)%list = (l1 ++ l2)%list.
Proof.
  unfold remove_nth; induction l1 as [|x l1 IH]; [reflexivity|].
  cbn [length firstn skipn app]; cbn in IH; f_equal.
  destruct l1; [reflexivity | exact IH].
Qed.

Lemma remove_nth_drops_id (l : list WireGuardServer) (i : nat) (sv : WireGuardServer) :
  NoDup (map sID l) -> nth_error l i = Some sv ->
  ~ In (sID sv) (map sID (remove_nth i l)).
Proof.
  intros Hnd Hi.
  destruct (nth_error_split l i Hi) as (l1 & l2 & -> & <-).
  rewrite remove_nth_split, map_app.
  rewrite map_app in Hnd; cbn in Hnd.
  now apply NoDup_remove_2 in Hnd.
Qed.

(** C6.  With distinct server IDs: deleting an enabled stored server calls
    [StopInterface] once, with its tag, before the in-memory document
    loses the server, and afterwards no listed server has that ID;
    deleting an absent ID returns [ErrNotFound] and does nothing. *)
Theorem DeleteServer_stops_before_removal (o : Oracle) (st : St) :
  NoDup (map sID (Servers (config st))) ->
  (forall sv, In sv (Servers (config st)) -> sEnabled sv = true ->
   let '(r, st') := DeleteServer o (sID sv) st in
   trace st'
   = (trace st ++ [EvStop (sTag sv); EvSet (Servers (config st'));
                   EvSave (config st') (o_write o (step st))])%list /\
   (r = Ok tt ->
    forall l, fst (GetServers st') = Ok l -> ~ In (sID sv) (map sID l))) /\
  (forall id, ~ In id (map sID (Servers (config st))) ->
   DeleteServer o id st = (Err ErrNotFound, st)).
Proof.
  intros Hnd; split.
  - intros sv Hin Hen.
    destruct (In_nth_error _ _ Hin) as [i Hi].
    pose proof (find_first_nodup sID _ i sv Hnd Hi) as Hf.
    unfold_service; rewrite Hf, Hen; cbn.
    destruct (o_write o (step st)); cbn; split;
      [ rewrite <- !app_assoc; reflexivity
      | intros _ l [= <-]; exact (remove_nth_drops_id _ i sv Hnd Hi)
      | rewrite <- !app_assoc; reflexivity
      | discriminate ].
  - intros id Hid; unfold_service.
    rewrite (find_first_absent sID _ id Hid); reflexivity.
Qed.

(* ------------------------------------------------------------------ *)
(** ** [UpdateClient] *)

Lemma find_client_nodup (l : list WireGuardServer) : forall i j server c,
  NoDup (map sID l) -> nth_error l i = Some server ->
  NoDup (map cID (sClients server)) -> nth_error (sClients server) j = Some c ->
  find_client (sID server) (cID c) l = Some (i, j, server, c).
Proof.
  induction l as [|s r IH]; intros i j server c Hnd Hi Hcnd Hj;
    [destruct i; discriminate|].
  inversion Hnd as [|? ? Hnotin Hnd']; subst.
  destruct i as [|i]; cbn in Hi |- *.
  - injection Hi as <-.
    now rewrite String.eqb_refl, (find_first_nodup cID _ j c Hcnd Hj).
  - assert (Hne : String.eqb (sID s) (sID server) = false).
    { apply String.eqb_neq; intros Heq; apply Hnotin; rewrite Heq.
      apply in_map, (nth_error_In r i), Hi. }
    now rewrite Hne, (IH i j server c Hnd' Hi Hcnd Hj).
Qed.

(** C7.  With distinct server IDs and distinct client IDs in the server,
    [UpdateClient] on a stored client keeps its name when [name] is empty
    and takes [name] otherwise, always stores [description] and [enabled],
    and returns (when the write succeeds) exactly the stored client. *)
Theorem UpdateClient_fields (o : Oracle) (st : St) (server : WireGuardServer)
  (c : WireGuardClient) (i j : nat) (name description : string) (enabled : bool) :
  NoDup (map sID (Servers (config st))) ->
  nth_error (Servers (config st)) i = Some server ->
  NoDup (map cID (sClients server)) ->
  nth_error (sClients server) j = Some c ->
  let '(r, st') :=
    UpdateClient o (sID server) (cID c) name description enabled st in
  exists sv' c',
    nth_error (Servers (config st')) i = Some sv' /\
    nth_error (sClients sv') j = Some c' /\
    cName c' = (if String.eqb name "" then cName c else name) /\
    cDescription c' = description /\ cEnabled c' = enabled /\
    r = (if o_write o (step st) then Ok c' else Err ErrWrite).
Proof.
  intros Hnd Hi Hcnd Hj.
  pose proof (find_client_nodup _ i j server c Hnd Hi Hcnd Hj) as Hf.
  unfold_service; rewrite Hf; cbn.
  destruct (o_write o (step st)); cbn;
    (eexists; eexists; split; [apply (nth_error_replace_nth _ i _ server Hi)|]);
    (split; [cbn; apply (nth_error_replace_nth _ j _ c Hj)|]);
    repeat split.
Qed.

(* ------------------------------------------------------------------ *)
(** ** [AddClient] *)

(** C4.  With distinct server IDs and generators that succeed, [AddClient]
    on a stored server appends one client.  A non-empty [AllowedIPs] in the
    draft is stored as it is.  An empty one, when the server's address has
    four dot-separated parts [p0.p1.p2.p3] and some host number in
    [[2,254]] is unused, becomes [p0.p1.p2.N/32] with [N] in [[2,254]],
    different from the server's host number and from the host number of
    every client already in the server. *)
Theorem AddClient_allowed_ip (o : Oracle) (st : St) (server : WireGuardServer)
  (i : nat) (draft : WireGuardClient) :
  NoDup (map sID (Servers (config st))) ->
  nth_error (Servers (config st)) i = Some server ->
  (forall n, o_keypair o n <> None) -> (forall n, o_psk o n <> None) ->
  exists c',
    Servers (config (snd (AddClient o (sID server) draft st)))
    = replace_nth i (with_clients server (sClients server ++ [c'])%list)
        (Servers (config st)) /\
    (cAllowedIPs draft <> "" -> cAllowedIPs c' = cAllowedIPs draft) /\
    (cAllowedIPs draft = "" ->
     forall p0 p1 p2 p3,
     ip_parts (sAddress server) = [p0; p1; p2; p3] ->
     (exists n, 2 <= n <= 254 /\ ~ In n (usedIPs server)) ->
     exists N, 2 <= N <= 254 /\
       cAllowedIPs c' = p0 ++ "." ++ p1 ++ "." ++ p2 ++ "." ++ GoFmt.itoa N ++ "/32" /\
       host_octet (sAddress server) <> Some N /\
       (forall c, In c (sClients server) -> host_octet (cAllowedIPs c) <> Some N)).
Proof.
  intros Hnd Hi Hkp Hpsk.
  pose proof (find_first_nodup sID _ i server Hnd Hi) as Hf.
  destruct (o_keypair o (step st)) as [kp|] eqn:Hk; [|now destruct (Hkp (step st))].
  destruct (o_psk o (S (step st))) as [psk|] eqn:Hp;
    [|now destruct (Hpsk (S (step st)))].
  unfold_service; rewrite Hf; cbn; rewrite Hk; cbn; rewrite Hp; cbn.
  destruct (o_write o (S (S (S (S (step st)))))); cbn;
    (eexists; split; [reflexivity|]); cbn;
    (split; [intros Hne; apply String.eqb_neq in Hne; now rewrite Hne|]);
    intros He p0 p1 p2 p3 Hparts Hfree; rewrite He; cbn;
    destruct (allocate_scan server p0 p1 p2 p3 Hparts Hfree) as (N & HN & Hu & Ha);
    exists N; (split; [exact HN|]); (split; [exact Ha|]);
    (split; [intros Hs; exact (Hu (usedIPs_server _ _ Hs))|]);
    intros c Hc Hs; exact (Hu (usedIPs_client _ _ _ Hc Hs)).
Qed.

(* ------------------------------------------------------------------ *)
(** ** Exhaustion and the used set *)

(** C5.  When every host number 2 to 254 is used in a server whose
    address has four dot-separated parts [p0.p1.p2.p3], the allocator
    does not fail: it returns [p0.p1.p2.<clientCount+2>/32]. *)
Theorem allocate_exhausted_fallback (server : WireGuardServer)
  (p0 p1 p2 p3 : string) :
  ip_parts (sAddress server) = [p0; p1; p2; p3] ->
  (forall n, 2 <= n <= 254 -> In n (usedIPs server)) ->
  allocateClientIP server
  = p0 ++ "." ++ p1 ++ "." ++ p2 ++ "."
    ++ GoFmt.itoa (Z.of_nat (length (sClients server)) + 2) ++ "/32".
Proof.
  intros Hp Hfull; unfold allocateClientIP; rewrite Hp.
  destruct (first_unused (usedIPs server) 2 253) as [N|] eqn:Hf.
  - apply first_unused_some in Hf as [HN Hu].
    assert (HI : In N (usedIPs server)) by (apply Hfull; lia).
    apply is_used_In in HI; congruence.
  - now rewrite <- !StrFacts.app_assoc_str.
Qed.

(** C9, as stated, fails: no allocated address equals the address of a
    client whose address does not have four dot-separated parts, since
    every allocated address has four. *)
Lemma C9_no_textual_duplicate :
  ~ (exists server c, In c (sClients server) /\
       length (ip_parts (cAllowedIPs c)) <> 4%nat /\
       allocateClientIP server = cAllowedIPs c).
Proof.
  intros (server & c & _ & Hl & He); rewrite <- He in Hl.
  exact (Hl (allocate_four_parts server)).
Qed.

Lemma host_octet_not_four (addr : string) :
  length (ip_parts addr) <> 4%nat -> host_octet addr = None.
Proof.
  unfold host_octet; intros Hl.
  destruct (ip_parts addr) as [|? [|? [|? [|? [|? ?]]]]]; try reflexivity.
  now destruct Hl.
Qed.

(** C9 (amended).  The used set reads only the fourth dot-separated part
    of each client's address: a client with any prefix whose fourth part
    parses blocks that number; a client whose address does not have four
    parts adds nothing to the set; and the allocated address never equals
    the address of such a client. *)
Theorem usedIPs_keyed_on_fourth_part (server : WireGuardServer) :
  (forall c x0 x1 x2 p n, In c (sClients server) ->
     ip_parts (cAllowedIPs c) = [x0; x1; x2; p] -> parseInt p = Some n ->
     In n (usedIPs server)) /\
  (forall l1 c l2, sClients server = (l1 ++ c :: l2)%list ->
     length (ip_parts (cAllowedIPs c)) <> 4%nat ->
     usedIPs server = usedIPs (with_clients server (l1 ++ l2)%list)) /\
  (forall c, In c (sClients server) ->
     length (ip_parts (cAllowedIPs c)) <> 4%nat ->
     allocateClientIP server <> cAllowedIPs c).
Proof.
  split; [|split].
  - intros c x0 x1 x2 p n Hc Hp Hn; apply (usedIPs_client server c n Hc).
    unfold host_octet; now rewrite Hp.
  - intros l1 c l2 Hcs Hl; unfold usedIPs; cbn [sClients sAddress with_clients].
    rewrite Hcs, !flat_map_app; cbn [flat_map].
    now rewrite (host_octet_not_four _ Hl).
  - intros c _ Hl He; rewrite <- He in Hl.
    exact (Hl (allocate_four_parts server)).
Qed.

(* ------------------------------------------------------------------ *)
(** ** Construction *)

(** C2 (the failure).  When [json.Unmarshal] rejects the stored file,
    [loadConfig] returns [ErrParse], but [NewService] drops it: the
    service is built on whatever [Unmarshal] left and answers
    [GetServers]. *)
Theorem NewService_drops_parse_error
  (json_Unmarshal : string -> WireGuardConfig -> WireGuardConfig * bool)
  (dir data : string) (c : WireGuardConfig) :
  json_Unmarshal data (mkConfig []) = (c, false) ->
  snd (loadConfig json_Unmarshal (ReadData data) (mkConfig [])) = Some ErrParse /\
  svc_config (NewService json_Unmarshal dir (ReadData data)) = c /\
  fst (GetServers (start (NewService json_Unmarshal dir (ReadData data))))
  = Ok (Servers c).
Proof.
  intros Hu; unfold NewService, loadConfig, GetServers, get_servers, start.
  cbn; rewrite Hu; repeat split.
Qed.

(* ------------------------------------------------------------------ *)
(** ** Witnesses: the theorems applied to concrete states *)

Example alloc_other_prefix_blocks :
  allocateClientIP (server0 "10.0.0.1/24" [client0 "192.168.9.2/32"]) = "10.0.0.3/32".
Proof. reflexivity. Qed.

Example alloc_full_server : allocateClientIP full_server = "10.0.0.255/32".
Proof. vm_compute. reflexivity. Qed.

Lemma allocate_exhausted_fallback_witness :
  allocateClientIP full_server
  = "10" ++ "." ++ "0" ++ "." ++ "0" ++ "."
    ++ GoFmt.itoa (Z.of_nat (length (sClients full_server)) + 2) ++ "/32".
Proof.
  apply (allocate_exhausted_fallback full_server "10" "0" "0" "1").
  - vm_compute; reflexivity.
  - intros n Hn; apply is_used_In, (first_unused_none _ 253 2);
      [vm_compute; reflexivity | lia].
Defined.

Lemma UpdateServer_preserves_identity_witness :
  exists sv,
    nth_error (Servers (config (snd (UpdateServer (world true) draftA stA)))) 0
    = Some sv /\
    sPrivateKey sv = sPrivateKey srvA /\ sPublicKey sv = sPublicKey srvA /\
    sCreatedAt sv = sCreatedAt srvA /\ sClients sv = sClients srvA /\
    sID sv = sID draftA /\ sTag sv = sTag draftA /\
    sAddress sv = sAddress draftA /\ sListenPort sv = sListenPort draftA /\
    sMTU sv = sMTU draftA /\ sDNS sv = sDNS draftA /\
    sEnabled sv = sEnabled draftA /\ sUpdatedAt sv = o_now (world true) (step stA).
Proof.
  apply (UpdateServer_preserves_identity (world true) stA draftA srvA 0).
  - vm_compute; constructor; [intros [] | constructor].
  - reflexivity.
  - reflexivity.
Defined.

Lemma UpdateServer_no_defaults_witness :
  (exists sv,
     nth_error (Servers (config (snd (UpdateServer (world true) draftA stA)))) 0
     = Some sv /\ sMTU sv = sMTU draftA /\ sDNS sv = sDNS draftA) /\
  (sMTU draftA = 0 -> sDNS draftA = "" ->
   o_keypair (world true) (step stA) <> None ->
   exists sv,
     Servers (config (snd (CreateServer (world true) draftA stA)))
     = (Servers (config stA) ++ [sv])%list /\
     sMTU sv = 1420 /\ sDNS sv = "1.1.1.1,8.8.8.8").
Proof.
  apply (UpdateServer_no_defaults (world true) stA draftA srvA 0).
  - vm_compute; constructor; [intros [] | constructor].
  - reflexivity.
  - reflexivity.
Defined.

Lemma CreateServer_fills_server_witness :
  let n := step empty_st in
  let draft := server0 "10.0.0.1/24" [] in
  exists sv,
    Servers (config (snd (CreateServer (world true) draft empty_st)))
    = (Servers (config empty_st) ++ [sv])%list /\
    fst (CreateServer (world true) draft empty_st)
    = (if o_write (world true) (S (S (S (S n)))) then Ok sv else Err ErrWrite) /\
    sID sv = o_uuid (world true) (S n) /\
    sPrivateKey sv = "priv0" /\ sPublicKey sv = "pub0" /\
    sCreatedAt sv = o_now (world true) (S (S n)) /\
    sUpdatedAt sv = o_now (world true) (S (S (S n))) /\
    sClients sv = [] /\
    sMTU sv = (if sMTU draft =? 0 then 1420 else sMTU draft) /\
    sDNS sv = (if String.eqb (sDNS draft) "" then "1.1.1.1,8.8.8.8"
               else sDNS draft) /\
    (NoDup (map sID (Servers (config empty_st))) ->
     ~ In (o_uuid (world true) (S n)) (map sID (Servers (config empty_st))) ->
     NoDup (map sID (Servers (config (snd (CreateServer (world true) draft empty_st)))))).
Proof.
  apply (CreateServer_fills_server (world true) empty_st (server0 "10.0.0.1/24" [])
           (mkKeyPair "priv0" "pub0")).
  reflexivity.
Defined.

Lemma DeleteServer_stops_before_removal_witness :
  (forall sv, In sv (Servers (config stA)) -> sEnabled sv = true ->
   let '(r, st') := DeleteServer (world true) (sID sv) stA in
   trace st'
   = (trace stA ++ [EvStop (sTag sv); EvSet (Servers (config st'));
                    EvSave (config st') (o_write (world true) (step stA))])%list /\
   (r = Ok tt ->
    forall l, fst (GetServers st') = Ok l -> ~ In (sID sv) (map sID l))) /\
  (forall id, ~ In id (map sID (Servers (config stA))) ->
   DeleteServer (world true) id stA = (Err ErrNotFound, stA)).
Proof.
  apply (DeleteServer_stops_before_removal (world true) stA).
  vm_compute; constructor; [intros [] | constructor].
Defined.

Lemma UpdateClient_fields_witness :
  let c := mkClient "c1" "laptop" "home" "cpriv" "cpub" "psk" "10.0.0.2/32" "" true 5 in
  let '(r, st') := UpdateClient (world true) (sID srvA) (cID c) "" "work" false stA in
  exists sv' c',
    nth_error (Servers (config st')) 0 = Some sv' /\
    nth_error (sClients sv') 0 = Some c' /\
    cName c' = (if String.eqb "" "" then cName c else "") /\
    cDescription c' = "work" /\ cEnabled c' = false /\
    r = (if o_write (world true) (step stA) then Ok c' else Err ErrWrite).
Proof.
  apply (UpdateClient_fields (world true) stA srvA
           (mkClient "c1" "laptop" "home" "cpriv" "cpub" "psk" "10.0.0.2/32" "" true 5)
           0 0 "" "work" false).
  - vm_compute; constructor; [intros [] | constructor].
  - reflexivity.
  - vm_compute; constructor; [intros [] | constructor].
  - reflexivity.
Defined.

Lemma AddClient_allowed_ip_witness :
  exists c',
    Servers (config (snd (AddClient (world true) (sID srvA) (client0 "") stA)))
    = replace_nth 0 (with_clients srvA (sClients srvA ++ [c'])%list)
        (Servers (config stA)) /\
    (cAllowedIPs (client0 "") <> "" -> cAllowedIPs c' = cAllowedIPs (client0 "")) /\
    (cAllowedIPs (client0 "") = "" ->
     forall p0 p1 p2 p3,
     ip_parts (sAddress srvA) = [p0; p1; p2; p3] ->
     (exists n, 2 <= n <= 254 /\ ~ In n (usedIPs srvA)) ->
     exists N, 2 <= N <= 254 /\
       cAllowedIPs c' = p0 ++ "." ++ p1 ++ "." ++ p2 ++ "." ++ GoFmt.itoa N ++ "/32" /\
       host_octet (sAddress srvA) <> Some N /\
       (forall c, In c (sClients srvA) -> host_octet (cAllowedIPs c) <> Some N)).
Proof.
  apply (AddClient_allowed_ip (world true) stA srvA 0 (client0 "")).
  - vm_compute; constructor; [intros [] | constructor].
  - reflexivity.
  - intros n; discriminate.
  - intros n; discriminate.
Defined.

Lemma NewService_drops_parse_error_witness :
  snd (loadConfig unmarshal_syntax_error (ReadData "{") (mkConfig [])) = Some ErrParse /\
  svc_config (NewService unmarshal_syntax_error "/data" (ReadData "{")) = mkConfig [] /\
  fst (GetServers (start (NewService unmarshal_syntax_error "/data" (ReadData "{"))))
  = Ok (Servers (mkConfig [])).
Proof.
  apply (NewService_drops_parse_error unmarshal_syntax_error "/data" "{" (mkConfig [])).
  reflexivity.
Defined.

(* ================================================================== *)
(** * Further properties of the service *)

(* ------------------------------------------------------------------ *)
(** ** List facts *)

Lemma find_first_some {A} (p : A -> bool) (l : list A) : forall i x,
  find_first p l = Some (i, x) -> nth_error l i = Some x /\ p x = true.
Proof.
  induction l as [|a r IH]; intros i x H; cbn in H; [discriminate|].
  destruct (p a) eqn:Ea.
  - injection H as <- <-; split; [reflexivity | exact Ea].
  - destruct (find_first p r) as [[i' y]|] eqn:Er; [|discriminate].
    injection H as <- <-; exact (IH i' y eq_refl).
Qed.

Lemma find_first_app {A} (p : A -> bool) (l1 l2 : list A) (a : A) :
  Forall (fun x => p x = false) l1 -> p a = true ->
  find_first p (l1 ++ a :: l2)%list = Some (length l1, a).
Proof.
  induction 1 as [|x l1 Hx _ IH]; intros Ha; cbn; [now rewrite Ha|].
  now rewrite Hx, IH.
Qed.

Lemma nodup_index {A} (f : A -> string) (l : list A) : forall i j x y,
  NoDup (map f l) -> nth_error l i = Some x -> nth_error l j = Some y ->
  f x = f y -> i = j.
Proof.
  induction l as [|a r IH]; intros i j x y Hnd Hi Hj Hf;
    [destruct i; discriminate|].
  inversion Hnd as [|? ? Hnotin Hnd']; subst.
  destruct i as [|i], j as [|j]; cbn in Hi, Hj.
  - reflexivity.
  - injection Hi as <-; exfalso; apply Hnotin; rewrite Hf.
    apply in_map, (nth_error_In r j), Hj.
  - injection Hj as <-; exfalso; apply Hnotin; rewrite <- Hf.
    apply in_map, (nth_error_In r i), Hi.
  - f_equal; exact (IH i j x y Hnd' Hi Hj Hf).
Qed.

Lemma nth_error_replace_nth_other {A} (l : list A) : forall i k x,
  k <> i -> nth_error (replace_nth i x l) k = nth_error l k.
Proof.
  induction l as [|a r IH]; intros [|i] [|k] x Hk; cbn; try reflexivity.
  - now destruct Hk.
  - apply IH; lia.
Qed.

Lemma replace_nth_self {A} (l : list A) : forall i x,
  nth_error l i = Some x -> replace_nth i x l = l.
Proof.
  induction l as [|a r IH]; intros [|i] x H; cbn in *; try discriminate.
  - now injection H as ->.
  - now rewrite (IH i x H).
Qed.

Lemma replace_nth_twice {A} (l : list A) : forall i x y,
  replace_nth i y (replace_nth i x l) = replace_nth i y l.
Proof.
  induction l as [|a r IH]; intros [|i] x y; cbn; [reflexivity..| now rewrite IH].
Qed.

Lemma map_replace_nth {A B} (f : A -> B) (l : list A) : forall i x y,
  nth_error l i = Some y -> f x = f y -> map f (replace_nth i x l) = map f l.
Proof.
  induction l as [|a r IH]; intros [|i] x y H Hf; cbn in *; try discriminate.
  - injection H as ->; now rewrite Hf.
  - now rewrite (IH i x y H Hf).
Qed.

Lemma remove_nth_cons_S {A} (a : A) (l : list A) (i : nat) :
  remove_nth (S i) (a :: l) = a :: remove_nth i l.
Proof. reflexivity. Qed.

Lemma in_remove_nth {A} (l : list A) : forall i x,
  In x (remove_nth i l) -> In x l.
Proof.
  induction l as [|a r IH]; intros [|i] x H; unfold remove_nth in *; cbn in *;
    try tauto.
  destruct H as [->|H]; [now left | right; exact (IH i x H)].
Qed.

Lemma NoDup_map_remove_nth {A B} (f : A -> B) (l : list A) : forall i,
  NoDup (map f l) -> NoDup (map f (remove_nth i l)).
Proof.
  induction l as [|a r IH]; intros [|i] Hnd; unfold remove_nth in *; cbn in *;
    try exact Hnd.
  - now inversion Hnd.
  - inversion Hnd as [|? ? Hnotin Hnd']; subst; constructor.
    + intros Hin; apply Hnotin; apply in_map_iff in Hin as (y & Hy & Hin).
      rewrite <- Hy; apply in_map, (in_remove_nth r i), Hin.
    + exact (IH i Hnd').
Qed.

Lemma with_clients_eta (s : WireGuardServer) : with_clients s (sClients s) = s.
Proof. now destruct s. Qed.

Lemma find_client_some (sid cid : string) (l : list WireGuardServer) :
  forall i j s c, find_client sid cid l = Some (i, j, s, c) ->
  nth_error l i = Some s /\ sID s = sid /\
  nth_error (sClients s) j = Some c /\ cID c = cid.
Proof.
  induction l as [|a r IH]; intros i j s c H; cbn in H; [discriminate|].
  destruct (find_client sid cid r) as [[[[i' j'] s'] c']|] eqn:Er.
  - destruct (String.eqb_spec (sID a) sid) as [Ha|Ha].
    + destruct (find_first _ (sClients a)) as [[j0 c0]|] eqn:Ef.
      * injection H as <- <- <- <-.
        apply find_first_some in Ef as [Hj Hc]; apply String.eqb_eq in Hc.
        repeat split; assumption.
      * injection H as <- <- <- <-; exact (IH i' j' s' c' eq_refl).
    + injection H as <- <- <- <-; exact (IH i' j' s' c' eq_refl).
  - destruct (String.eqb_spec (sID a) sid) as [Ha|Ha]; [|discriminate].
    destruct (find_first _ (sClients a)) as [[j0 c0]|] eqn:Ef; [|discriminate].
    injection H as <- <- <- <-.
    apply find_first_some in Ef as [Hj Hc]; apply String.eqb_eq in Hc.
    repeat split; assumption.
Qed.

(** [find_client] finds the [j]-th client of the [i]-th server once the
    server IDs are distinct and [j] is the first client with that ID. *)
Lemma find_client_at (l : list WireGuardServer) : forall i j server c cid,
  NoDup (map sID l) -> nth_error l i = Some server ->
  find_first (fun c => String.eqb (cID c) cid) (sClients server) = Some (j, c) ->
  find_client (sID server) cid l = Some (i, j, server, c).
Proof.
  induction l as [|s r IH]; intros i j server c cid Hnd Hi Hf;
    [destruct i; discriminate|].
  inversion Hnd as [|? ? Hnotin Hnd']; subst.
  destruct i as [|i]; cbn in Hi |- *.
  - injection Hi as <-; now rewrite String.eqb_refl, Hf.
  - assert (Hne : String.eqb (sID s) (sID server) = false).
    { apply String.eqb_neq; intros Heq; apply Hnotin; rewrite Heq.
      apply in_map, (nth_error_In r i), Hi. }
    now rewrite Hne, (IH i j server c cid Hnd' Hi Hf).
Qed.

Lemma find_client_absent (sid cid : string) (l : list WireGuardServer) :
  (forall s, In s l -> sID s = sid -> ~ In cid (map cID (sClients s))) ->
  find_client sid cid l = None.
Proof.
  induction l as [|a r IH]; intros H; cbn; [reflexivity|].
  rewrite IH by (intros s Hs; apply H; now right).
  destruct (String.eqb_spec (sID a) sid) as [Ha|Ha]; [|reflexivity].
  rewrite (find_first_absent cID _ cid (H a (or_introl eq_refl) Ha)); reflexivity.
Qed.

Lemma find_first_present {A} (f : A -> string) (l : list A) (k : string) :
  In k (map f l) -> exists i x, find_first (fun y => String.eqb (f y) k) l = Some (i, x).
Proof.
  induction l as [|a r IH]; simpl; intros H; [contradiction|].
  destruct (String.eqb (f a) k) eqn:E; [eauto|].
  apply String.eqb_neq in E.
  destruct H as [H|H]; [congruence|].
  destruct (IH H) as (i & x & ->); eauto.
Qed.

Lemma absent_Forall {A} (f : A -> string) (l : list A) (k : string) :
  ~ In k (map f l) -> Forall (fun y => String.eqb (f y) k = false) l.
Proof.
  intros H; apply Forall_forall; intros x Hx; apply String.eqb_neq.
  intros <-; apply H, in_map, Hx.
Qed.

(* ------------------------------------------------------------------ *)
(** ** Lookups and failure paths *)

(** [GetServer] with distinct server IDs returns the stored server with
    that ID, and [ErrNotFound] for an ID no server has; it changes
    nothing. *)
Theorem GetServer_lookup (st : St) :
  NoDup (map sID (Servers (config st))) ->
  (forall s, In s (Servers (config st)) -> GetServer (sID s) st = (Ok s, st)) /\
  (forall id, ~ In id (map sID (Servers (config st))) ->
   GetServer id st = (Err ErrNotFound, st)).
Proof.
  intros Hnd; split.
  - intros s Hs; destruct (In_nth_error _ _ Hs) as [i Hi].
    unfold GetServer, get_servers, bind, ret; cbn.
    now rewrite (find_first_nodup sID _ i s Hnd Hi).
  - intros id Hid; unfold GetServer, get_servers, bind, fail; cbn.
    now rewrite (find_first_absent sID _ id Hid).
Qed.

(** A server [CreateServer] adds is found by [GetServer] under its new ID
    when that UUID was not in use (whether or not the write succeeded). *)
Theorem CreateServer_then_GetServer (o : Oracle) (st : St)
  (draft : WireGuardServer) (kp : KeyPair) :
  o_keypair o (step st) = Some kp ->
  ~ In (o_uuid o (S (step st))) (map sID (Servers (config st))) ->
  let st' := snd (CreateServer o draft st) in
  GetServer (o_uuid o (S (step st))) st'
  = (Ok (created_server draft kp (o_uuid o (S (step st))) (o_now o (S (S (step st))))
           (o_now o (S (S (S (step st)))))), st').
Proof.
  intros Hkp Hfresh st'.
  pose proof (CreateServer_spec o st draft kp Hkp) as Hs; cbn zeta in Hs.
  unfold st'; destruct (CreateServer o draft st) as [r st1]; destruct Hs as [Hsv _].
  unfold GetServer, get_servers, bind, ret; cbn; rewrite Hsv.
  rewrite (find_first_app _ _ [] _ (absent_Forall sID _ _ Hfresh));
    [reflexivity | apply String.eqb_refl].
Qed.

(** Every lookup-based operation given an ID that is not there returns
    [ErrNotFound] and leaves the state as it was: no clock read, no key
    generated, nothing written.  For the client operations "not there"
    means no server with that ID holds a client with that ID. *)
Theorem not_found_changes_nothing (o : Oracle) (st : St) :
  (forall draft, ~ In (sID draft) (map sID (Servers (config st))) ->
   UpdateServer o draft st = (Err ErrNotFound, st)) /\
  (forall sid draft, ~ In sid (map sID (Servers (config st))) ->
   AddClient o sid draft st = (Err ErrNotFound, st)) /\
  (forall sid cid name description enabled,
   (forall s, In s (Servers (config st)) -> sID s = sid ->
    ~ In cid (map cID (sClients s))) ->
   UpdateClient o sid cid name description enabled st = (Err ErrNotFound, st)) /\
  (forall sid cid,
   (forall s, In s (Servers (config st)) -> sID s = sid ->
    ~ In cid (map cID (sClients s))) ->
   DeleteClient o sid cid st = (Err ErrNotFound, st)).
Proof.
  split; [|split; [|split]].
  - intros d Hd; unfold UpdateServer, get_servers, bind, fail; cbn.
    now rewrite (find_first_absent sID _ _ Hd).
  - intros sid d Hd; unfold AddClient, get_servers, bind, fail; cbn.
    now rewrite (find_first_absent sID _ _ Hd).
  - intros sid cid n de en H; unfold UpdateClient, get_servers, bind, fail; cbn.
    now rewrite (find_client_absent sid cid _ H).
  - intros sid cid H; unfold DeleteClient, get_servers, bind, fail; cbn.
    now rewrite (find_client_absent sid cid _ H).
Qed.

(** A failing key-pair or preshared-key generator aborts [CreateServer]
    and [AddClient] with its error before the document is touched: the
    document and the trace stay as they were. *)
Theorem generator_failure_changes_no_document (o : Oracle) (st : St) :
  (o_keypair o (step st) = None -> forall draft,
   fst (CreateServer o draft st) = Err ErrKeyGen /\
   config (snd (CreateServer o draft st)) = config st /\
   trace (snd (CreateServer o draft st)) = trace st) /\
  (forall sid draft, In sid (map sID (Servers (config st))) ->
   o_keypair o (step st) = None ->
   fst (AddClient o sid draft st) = Err ErrKeyGen /\
   config (snd (AddClient o sid draft st)) = config st /\
   trace (snd (AddClient o sid draft st)) = trace st) /\
  (forall sid draft, In sid (map sID (Servers (config st))) ->
   o_keypair o (step st) <> None -> o_psk o (S (step st)) = None ->
   fst (AddClient o sid draft st) = Err ErrPresharedKey /\
   config (snd (AddClient o sid draft st)) = config st /\
   trace (snd (AddClient o sid draft st)) = trace st).
Proof.
  split; [|split].
  - intros Hk d; unfold_service; rewrite Hk; cbn; repeat split.
  - intros sid d Hin Hk.
    destruct (find_first_present sID _ sid Hin) as (i & x & Hf).
    unfold_service; rewrite Hf; cbn; rewrite Hk; cbn; repeat split.
  - intros sid d Hin Hk Hp.
    destruct (find_first_present sID _ sid Hin) as (i & x & Hf).
    destruct (o_keypair o (step st)) as [kp|] eqn:Hk'; [|congruence].
    unfold_service; rewrite Hf; cbn; rewrite Hk'; cbn; rewrite Hp; cbn.
    repeat split.
Qed.

(* ------------------------------------------------------------------ *)
(** ** Removal keeps the order of what remains *)

Lemma nth_error_middle' {A} (l1 l2 : list A) (a : A) :
  nth_error (l1 ++ a :: l2)%list (length l1) = Some a.
Proof. rewrite nth_error_app2, Nat.sub_diag by lia; reflexivity. Qed.

Lemma replace_nth_middle {A} (l1 l2 : list A) (a x : A) :
  replace_nth (length l1) x (l1 ++ a :: l2)%list = (l1 ++ x :: l2)%list.
Proof. induction l1 as [|b l1 IH]; cbn; [reflexivity | now rewrite IH]. Qed.

Lemma with_clients_twice (s : WireGuardServer) (cs cs' : list WireGuardClient) :
  with_clients (with_clients s cs) cs' = with_clients s cs'.
Proof. reflexivity. Qed.

(** [DeleteServer] on the server [sv] of [l1 ++ sv :: l2] (IDs distinct)
    leaves [l1 ++ l2], in order, whatever the write does; when [sv] is
    disabled the interface is not touched: the trace gains only the new
    list and the save. *)
Theorem DeleteServer_keeps_order (o : Oracle) (st : St)
  (l1 l2 : list WireGuardServer) (sv : WireGuardServer) :
  NoDup (map sID (Servers (config st))) ->
  Servers (config st) = (l1 ++ sv :: l2)%list ->
  let '(r, st') := DeleteServer o (sID sv) st in
  Servers (config st') = (l1 ++ l2)%list /\
  r = (if o_write o (step st) then Ok tt else Err ErrWrite) /\
  (sEnabled sv = false ->
   trace st' = (trace st ++ [EvSet (l1 ++ l2); EvSave (mkConfig (l1 ++ l2))
                                                 (o_write o (step st))])%list).
Proof.
  intros Hnd HS.
  assert (Hi : nth_error (Servers (config st)) (length l1) = Some sv)
    by (rewrite HS; apply nth_error_middle').
  pose proof (find_first_nodup sID _ _ sv Hnd Hi) as Hf.
  unfold_service; rewrite Hf; cbn.
  rewrite HS, remove_nth_split.
  destruct (sEnabled sv); cbn;
    (destruct (o_write o (step st)); cbn; repeat split;
     try (intros Hen; discriminate Hen); rewrite <- app_assoc; reflexivity).
Qed.

(** [DeleteClient] on the first client [c] with its ID in the server
    [server] of [l1 ++ server :: l2] (server IDs distinct) removes just
    that client: the server's clients become [c1 ++ c2], in order, and no
    other server changes. *)
Theorem DeleteClient_keeps_order (o : Oracle) (st : St)
  (l1 l2 : list WireGuardServer) (server : WireGuardServer)
  (c1 c2 : list WireGuardClient) (c : WireGuardClient) :
  NoDup (map sID (Servers (config st))) ->
  Servers (config st) = (l1 ++ server :: l2)%list ->
  sClients server = (c1 ++ c :: c2)%list ->
  ~ In (cID c) (map cID c1) ->
  let '(r, st') := DeleteClient o (sID server) (cID c) st in
  Servers (config st') = (l1 ++ with_clients server (c1 ++ c2) :: l2)%list /\
  r = (if o_write o (step st) then Ok tt else Err ErrWrite).
Proof.
  intros Hnd HS Hc Hfirst.
  assert (Hi : nth_error (Servers (config st)) (length l1) = Some server)
    by (rewrite HS; apply nth_error_middle').
  assert (Hfc : find_first (fun x => String.eqb (cID x) (cID c)) (sClients server)
                = Some (length c1, c)).
  { rewrite Hc; apply find_first_app;
      [exact (absent_Forall cID c1 _ Hfirst) | apply String.eqb_refl]. }
  pose proof (find_client_at _ _ _ server c (cID c) Hnd Hi Hfc) as Hf.
  unfold_service; rewrite Hf; cbn.
  rewrite Hc, remove_nth_split, HS, replace_nth_middle.
  destruct (o_write o (step st)); split; reflexivity.
Qed.

(* ------------------------------------------------------------------ *)
(** ** Round trips *)

Lemma AddClient_spec (o : Oracle) (st : St) (server : WireGuardServer) (i : nat)
  (client : WireGuardClient) (kp : KeyPair) (psk : string) :
  NoDup (map sID (Servers (config st))) ->
  nth_error (Servers (config st)) i = Some server ->
  o_keypair o (step st) = Some kp -> o_psk o (S (step st)) = Some psk ->
  let n := step st in
  let c := added_client server client kp psk (o_uuid o (S (S n)))
             (o_now o (S (S (S n)))) in
  let '(r, st') := AddClient o (sID server) client st in
  Servers (config st')
  = replace_nth i (with_clients server (sClients server ++ [c])) (Servers (config st)) /\
  r = (if o_write o (S (S (S (S n)))) then Ok c else Err ErrWrite) /\
  step st' = S (S (S (S (S n)))).
Proof.
  intros Hnd Hi Hk Hp.
  pose proof (find_first_nodup sID _ i server Hnd Hi) as Hf.
  unfold_service; rewrite Hf; cbn; rewrite Hk; cbn; rewrite Hp; cbn.
  destruct (o_write o (S (S (S (S (step st)))))); repeat split.
Qed.

(** Deleting the client [AddClient] just added (by its new UUID, not yet
    used by a client of that server) gives back the server list as it was
    before the addition, whether or not either write succeeded. *)
Theorem AddClient_DeleteClient_roundtrip (o : Oracle) (st : St)
  (server : WireGuardServer) (i : nat) (client : WireGuardClient)
  (kp : KeyPair) (psk : string) :
  NoDup (map sID (Servers (config st))) ->
  nth_error (Servers (config st)) i = Some server ->
  o_keypair o (step st) = Some kp -> o_psk o (S (step st)) = Some psk ->
  ~ In (o_uuid o (S (S (step st)))) (map cID (sClients server)) ->
  let st1 := snd (AddClient o (sID server) client st) in
  Servers (config (snd (DeleteClient o (sID server) (o_uuid o (S (S (step st)))) st1)))
  = Servers (config st).
Proof.
  intros Hnd Hi Hk Hp Hfresh st1.
  pose proof (AddClient_spec o st server i client kp psk Hnd Hi Hk Hp) as Hs;
    cbn zeta in Hs.
  unfold st1; destruct (AddClient o (sID server) client st) as [r st1'];
    destruct Hs as [Hsv _]; cbn [snd].
  set (c := added_client _ _ _ _ _ _) in Hsv.
  set (srv' := with_clients server (sClients server ++ [c])) in Hsv.
  assert (Hnd1 : NoDup (map sID (Servers (config st1')))).
  { rewrite Hsv, (map_replace_nth sID _ i srv' server Hi eq_refl); exact Hnd. }
  assert (Hi1 : nth_error (Servers (config st1')) i = Some srv')
    by (rewrite Hsv; exact (nth_error_replace_nth _ i srv' server Hi)).
  assert (Hfc : find_first (fun x => String.eqb (cID x) (o_uuid o (S (S (step st)))))
                  (sClients srv') = Some (length (sClients server), c)).
  { apply find_first_app;
      [exact (absent_Forall cID _ _ Hfresh) | apply String.eqb_refl]. }
  pose proof (find_client_at _ _ _ srv' c _ Hnd1 Hi1 Hfc) as Hf; cbn in Hf.
  unfold DeleteClient, get_servers, set_servers, saveConfig, bind, ret; cbn.
  rewrite Hf; cbn.
  destruct (o_write o (step st1')); cbn;
    rewrite Hsv, replace_nth_twice; unfold srv';
    rewrite with_clients_twice, (remove_nth_split _ []), app_nil_r,
      with_clients_eta; exact (replace_nth_self _ i server Hi).
Qed.

(** Deleting the server [CreateServer] just added (by its new UUID, not
    yet a server ID) gives back the server list as it was. *)
Theorem CreateServer_DeleteServer_roundtrip (o : Oracle) (st : St)
  (draft : WireGuardServer) (kp : KeyPair) :
  o_keypair o (step st) = Some kp ->
  ~ In (o_uuid o (S (step st))) (map sID (Servers (config st))) ->
  let st1 := snd (CreateServer o draft st) in
  Servers (config (snd (DeleteServer o (o_uuid o (S (step st))) st1)))
  = Servers (config st).
Proof.
  intros Hkp Hfresh st1.
  pose proof (CreateServer_spec o st draft kp Hkp) as Hs; cbn zeta in Hs.
  unfold st1; destruct (CreateServer o draft st) as [r st1']; destruct Hs as [Hsv _].
  cbn [snd].
  set (sv := created_server _ _ _ _ _) in Hsv.
  assert (Hf : find_first (fun s => String.eqb (sID s) (o_uuid o (S (step st))))
                 (Servers (config st1')) = Some (length (Servers (config st)), sv)).
  { rewrite Hsv; apply find_first_app;
      [exact (absent_Forall sID _ _ Hfresh) | apply String.eqb_refl]. }
  unfold DeleteServer, StopInterface, emit, get_servers, set_servers, saveConfig,
    bind, ret; cbn.
  rewrite Hf; cbn.
  rewrite Hsv, (remove_nth_split _ []), app_nil_r.
  destruct (sEnabled draft); cbn; destruct (o_write o (step st1')); reflexivity.
Qed.

(* ------------------------------------------------------------------ *)
(** ** What every operation leaves behind *)

(** Each of the six operations either fails before touching anything
    (same document, same trace, and an error other than a failed write),
    or ends by saving the document it leaves in memory, with its result
    telling whether that last write succeeded. *)
Theorem run_op_saves_or_untouched (o : Oracle) (op : Op) (st : St) :
  let '(r, st') := run_op o op st in
  (config st' = config st /\ trace st' = trace st /\
   exists e, r = Err e /\ e <> ErrWrite) \/
  (exists pre ok, trace st' = ((trace st ++ pre) ++ [EvSave (config st') ok])%list /\
   r = (if ok then Ok tt else Err ErrWrite)).
Proof.
  destruct op; unfold_service; split_matches; cbn in *;
    first
      [ left; split; [reflexivity|]; split; [reflexivity|];
        eexists; split; [reflexivity | discriminate]
      | right;
        try match goal with
            | |- context [(((trace ?s ++ ?a) ++ ?b) ++ [EvSave _ _])%list] =>
                rewrite <- (app_assoc (trace s) a b)
            end;
        do 2 eexists; split; reflexivity ].
Qed.

Lemma Forall_replace_nth {A} (P : A -> Prop) (l : list A) : forall i x,
  Forall P l -> P x -> Forall P (replace_nth i x l).
Proof.
  induction l as [|a r IH]; intros [|i] x Hl Hx; cbn; try exact Hl;
    inversion Hl; subst; constructor; auto.
Qed.

Lemma Forall_remove_nth {A} (P : A -> Prop) (l : list A) (i : nat) :
  Forall P l -> Forall P (remove_nth i l).
Proof.
  rewrite !Forall_forall; intros H x Hx; apply H, (in_remove_nth l i x Hx).
Qed.

Lemma ids_distinct_replace (l : list WireGuardServer) (i : nat)
  (old x : WireGuardServer) :
  ids_distinct (mkConfig l) -> nth_error l i = Some old -> sID x = sID old ->
  NoDup (map cID (sClients x)) -> ids_distinct (mkConfig (replace_nth i x l)).
Proof.
  intros [Hs Hc] Hi Hid Hx; split; cbn in *.
  - now rewrite (map_replace_nth sID l i x old Hi Hid).
  - now apply Forall_replace_nth.
Qed.

Lemma ids_distinct_remove (l : list WireGuardServer) (i : nat) :
  ids_distinct (mkConfig l) -> ids_distinct (mkConfig (remove_nth i l)).
Proof.
  intros [Hs Hc]; split; cbn in *;
    [now apply NoDup_map_remove_nth | now apply Forall_remove_nth].
Qed.

Lemma ids_distinct_snoc (l : list WireGuardServer) (x : WireGuardServer) :
  ids_distinct (mkConfig l) -> ~ In (sID x) (map sID l) ->
  NoDup (map cID (sClients x)) -> ids_distinct (mkConfig (l ++ [x])).
Proof.
  intros [Hs Hc] Hnew Hx; split; cbn in *.
  - rewrite map_app; now apply NoDup_snoc.
  - apply Forall_app; split; [exact Hc | constructor; [exact Hx | constructor]].
Qed.

Lemma ids_distinct_at (l : list WireGuardServer) (i : nat) (s : WireGuardServer) :
  ids_distinct (mkConfig l) -> nth_error l i = Some s ->
  NoDup (map cID (sClients s)).
Proof.
  intros [_ Hc] Hi; cbn in Hc; rewrite Forall_forall in Hc.
  exact (Hc s (nth_error_In l i Hi)).
Qed.

(** Every operation keeps server IDs distinct, and client IDs distinct
    within each server, provided the UUID it may draw is new: for
    [CreateServer] (the second outside call) not a server ID, for
    [AddClient] (the third) not a client ID of any stored server. *)
Theorem run_op_keeps_ids_distinct (o : Oracle) (op : Op) (st : St) :
  ids_distinct (config st) ->
  ~ In (o_uuid o (S (step st))) (map sID (Servers (config st))) ->
  (forall s, In s (Servers (config st)) ->
   ~ In (o_uuid o (S (S (step st)))) (map cID (sClients s))) ->
  ids_distinct (config (snd (run_op o op st))).
Proof.
  intros Hd Hsrv Hcl.
  destruct st as [[l] n t]; cbn [config Servers step] in *.
  destruct op; unfold_service; split_matches; cbn in *; try exact Hd.
  (* DeleteServer removes, CreateServer appends *)
  all: try (apply ids_distinct_remove; exact Hd).
  all: try (apply ids_distinct_snoc; [exact Hd | exact Hsrv | constructor]).
  (* the others replace the server they found *)
  all: try match goal with
           | E : find_client _ _ _ = Some _ |- _ =>
               apply find_client_some in E as (Hi & _ & Hj & _)
           | E : find_first _ _ = Some _ |- _ =>
               apply find_first_some in E as [Hi Hid]; apply String.eqb_eq in Hid
           end.
  all: apply (ids_distinct_replace _ _ _ _ Hd Hi); cbn; [first [reflexivity | congruence]|].
  all: first
         [ exact (ids_distinct_at _ _ _ Hd Hi)
         | rewrite map_app; cbn [map]; apply NoDup_snoc;
           [ exact (ids_distinct_at _ _ _ Hd Hi)
           | exact (Hcl _ (nth_error_In _ _ Hi)) ]
         | erewrite map_replace_nth; [exact (ids_distinct_at _ _ _ Hd Hi)
                                     | exact Hj | reflexivity ]
         | apply NoDup_map_remove_nth; exact (ids_distinct_at _ _ _ Hd Hi) ].
Qed.

(* ------------------------------------------------------------------ *)
(** ** [parseInt] reads back what [%d] prints *)

Lemma nat_of_digit_char (d : Z) :
  0 <= d < 10 -> nat_of_ascii (GoFmt.digit_char d) = (48 + Z.to_nat d)%nat.
Proof. intros Hd; unfold GoFmt.digit_char; apply nat_ascii_embedding; lia. Qed.

Lemma dec_aux_S (f : nat) (z : Z) (acc : string) :
  GoFmt.dec_aux (S f) z acc
  = if z / 10 =? 0 then String (GoFmt.digit_char (z mod 10)) acc
    else GoFmt.dec_aux f (z / 10) (String (GoFmt.digit_char (z mod 10)) acc).
Proof. reflexivity. Qed.

Lemma dec_aux_head (f : nat) : forall z acc,
  exists d r, 0 <= d < 10 /\ GoFmt.dec_aux (S f) z acc = String (GoFmt.digit_char d) r.
Proof.
  induction f as [|f IH]; intros z acc; rewrite dec_aux_S.
  - destruct (z / 10 =? 0); exists (z mod 10), acc;
      (split; [apply Z.mod_pos_bound; lia | reflexivity]).
  - destruct (z / 10 =? 0); [|apply IH].
    exists (z mod 10), acc; split; [apply Z.mod_pos_bound; lia | reflexivity].
Qed.

Lemma digits_digit_char (d : Z) (r : string) (a : Z) (m : nat) :
  0 <= d < 10 ->
  GoFmt.digits (String (GoFmt.digit_char d) r) a m = GoFmt.digits r (a * 10 + d) (S m).
Proof.
  intros Hd; cbn [GoFmt.digits]; unfold GoFmt.is_digit.
  rewrite nat_of_digit_char by exact Hd.
  replace ((48 <=? 48 + Z.to_nat d)%nat && (48 + Z.to_nat d <=? 57)%nat) with true
    by (symmetry; apply andb_true_iff; split; apply Nat.leb_le; lia).
  f_equal; rewrite Nat.add_comm, Nat.add_sub, Z2Nat.id; lia.
Qed.

Lemma digits_dec_aux (f : nat) : forall z acc a m,
  0 <= z < 10 ^ Z.of_nat (S f) ->
  exists k, (0 < k)%nat /\
    GoFmt.digits (GoFmt.dec_aux (S f) z acc) a m
    = GoFmt.digits acc (a * 10 ^ Z.of_nat k + z) (m + k).
Proof.
  assert (Hdm : forall z, z = 10 * (z / 10) + z mod 10) by (intros; apply Z.div_mod; lia).
  assert (Hb : forall z, 0 <= z mod 10 < 10) by (intros; apply Z.mod_pos_bound; lia).
  induction f as [|f IH]; intros z acc a m Hz; rewrite dec_aux_S.
  - (* one digit of fuel: [z] has a single digit *)
    assert (Hq : z / 10 = 0) by (apply Z.div_small; cbn in Hz; lia).
    rewrite Hq; cbn [Z.eqb].
    exists 1%nat; split; [lia|].
    rewrite digits_digit_char by apply Hb; rewrite Nat.add_1_r.
    f_equal; specialize (Hdm z); rewrite Hq in Hdm; cbn; lia.
  - destruct (z / 10 =? 0) eqn:Hq.
    + apply Z.eqb_eq in Hq.
      exists 1%nat; split; [lia|].
      rewrite digits_digit_char by apply Hb; rewrite Nat.add_1_r.
      f_equal; specialize (Hdm z); rewrite Hq in Hdm; cbn; lia.
    + assert (Hz' : 0 <= z / 10 < 10 ^ Z.of_nat (S f)).
      { split; [apply Z.div_pos; lia|].
        apply Z.div_lt_upper_bound; [lia|].
        rewrite Nat2Z.inj_succ, Z.pow_succ_r in Hz by lia; lia. }
      destruct (IH (z / 10) (String (GoFmt.digit_char (z mod 10)) acc) a m Hz')
        as (k & Hk & ->).
      rewrite digits_digit_char by apply Hb.
      exists (S k); split; [lia|].
      rewrite <- Nat.add_succ_comm; f_equal.
      rewrite Nat2Z.inj_succ, Z.pow_succ_r by lia.
      specialize (Hdm z); nia.
Qed.

Lemma itoa_fuel (z : Z) :
  0 <= z -> z < 10 ^ Z.of_nat (S (Z.to_nat (Z.log2 z))).
Proof.
  intros Hz.
  rewrite Nat2Z.inj_succ, Z2Nat.id by apply Z.log2_nonneg.
  apply Z.lt_le_trans with (2 ^ Z.succ (Z.log2 z)).
  - destruct (Z.eq_dec z 0) as [->|Hnz]; [reflexivity|].
    apply Z.log2_spec; lia.
  - apply Z.pow_le_mono_l; pose proof (Z.log2_nonneg z); lia.
Qed.

Lemma digits_stop (s : string) (v : Z) (n : nat) :
  starts_with_digit s = false -> GoFmt.digits s v n = (v, n).
Proof. destruct s as [|c r]; cbn; [reflexivity | intros ->; reflexivity]. Qed.

Lemma dec_aux_app (f : nat) : forall z acc s,
  (GoFmt.dec_aux f z acc ++ s)%string = GoFmt.dec_aux f z (acc ++ s).
Proof.
  induction f as [|f IH]; intros z acc s; [reflexivity|].
  rewrite !dec_aux_S; destruct (z / 10 =? 0); [reflexivity | apply IH].
Qed.

Lemma itoa_app (z : Z) (s : string) :
  (GoFmt.itoa z ++ s)%string
  = if z <? 0
    then String "-" (GoFmt.dec_aux (S (Z.to_nat (Z.log2 (Z.abs z)))) (- z) s)
    else GoFmt.dec_aux (S (Z.to_nat (Z.log2 (Z.abs z)))) z s.
Proof.
  unfold GoFmt.itoa; destruct (z <? 0); cbn [String.append];
    rewrite dec_aux_app; reflexivity.
Qed.

Lemma scan_int_itoa_app (z : Z) (s : string) :
  GoFmt.int64_min <= z <= GoFmt.int64_max -> starts_with_digit s = false ->
  parseInt (GoFmt.itoa z ++ s) = Some z.
Proof.
  intros Hr Hs; unfold parseInt, GoFmt.scan_int; rewrite itoa_app.
  set (fuel := Z.to_nat (Z.log2 (Z.abs z))).
  destruct (Z.ltb_spec z 0) as [Hneg|Hpos].
  - assert (Hb : 0 <= - z < 10 ^ Z.of_nat (S fuel)).
    { unfold fuel; rewrite Z.abs_neq by lia; split; [lia | apply itoa_fuel; lia]. }
    destruct (digits_dec_aux fuel (- z) s 0 O Hb) as (k & Hk & Hd).
    destruct (dec_aux_head fuel (- z) s) as (d & r & Hdr & Hh).
    rewrite Hh in Hd |- *.
    revert Hd; generalize (String (GoFmt.digit_char d) r) as t; intros t Hd.
    cbn [GoFmt.skip_space].
    replace (GoFmt.is_newline "-") with false by reflexivity.
    replace (GoFmt.is_space "-") with false by reflexivity.
    replace (Ascii.eqb "-" "-") with true by reflexivity.
    cbv beta iota.
    rewrite Hd, digits_stop by exact Hs.
    destruct k as [|k]; [lia|]; cbn [Nat.add Nat.eqb].
    rewrite Z.mul_0_l, Z.add_0_l, Z.opp_involutive.
    unfold GoFmt.int64_min, GoFmt.int64_max in *.
    replace ((- 2 ^ 63 <=? z) && (z <=? 2 ^ 63 - 1)) with true
      by (symmetry; apply andb_true_iff; split; apply Z.leb_le; lia).
    reflexivity.
  - assert (Hb : 0 <= z < 10 ^ Z.of_nat (S fuel)).
    { unfold fuel; rewrite Z.abs_eq by lia; split; [lia | apply itoa_fuel; lia]. }
    destruct (digits_dec_aux fuel z s 0 O Hb) as (k & Hk & Hd).
    destruct (dec_aux_head fuel z s) as (d & r & Hdr & Hh).
    rewrite Hh in Hd |- *.
    assert (Hn : nat_of_ascii (GoFmt.digit_char d) = (48 + Z.to_nat d)%nat)
      by (apply nat_of_digit_char; exact Hdr).
    assert (Hnl : GoFmt.is_newline (GoFmt.digit_char d) = false)
      by (unfold GoFmt.is_newline; rewrite Hn; apply Nat.eqb_neq; lia).
    assert (Hsp : GoFmt.is_space (GoFmt.digit_char d) = false).
    { unfold GoFmt.is_space; rewrite Hn.
      repeat rewrite (proj2 (Nat.eqb_neq _ _)) by lia; reflexivity. }
    assert (Hm : forall c, (nat_of_ascii c < 48)%nat ->
                 Ascii.eqb (GoFmt.digit_char d) c = false).
    { intros c Hc; apply Ascii.eqb_neq; intros Heq.
      rewrite <- Heq, Hn in Hc; lia. }
    cbn [GoFmt.skip_space]; rewrite Hnl, Hsp.
    rewrite (Hm "-"%char ltac:(cbn; lia)), (Hm "+"%char ltac:(cbn; lia)).
    cbv beta iota.
    rewrite Hd, digits_stop by exact Hs.
    destruct k as [|k]; [lia|]; cbn [Nat.add Nat.eqb].
    rewrite Z.mul_0_l, Z.add_0_l.
    unfold GoFmt.int64_min, GoFmt.int64_max in *.
    replace ((- 2 ^ 63 <=? z) && (z <=? 2 ^ 63 - 1)) with true
      by (symmetry; apply andb_true_iff; split; apply Z.leb_le; lia).
    reflexivity.
Qed.

Lemma append_empty_r (a : string) : (a ++ "")%string = a.
Proof. induction a as [|c a IH]; cbn; [reflexivity | now rewrite IH]. Qed.

Lemma scan_int_itoa (z : Z) :
  GoFmt.int64_min <= z <= GoFmt.int64_max -> parseInt (GoFmt.itoa z) = Some z.
Proof.
  intros Hr; rewrite <- (append_empty_r (GoFmt.itoa z)).
  exact (scan_int_itoa_app z EmptyString Hr eq_refl).
Qed.

(** [fmt.Sscanf(fmt.Sprintf("%d", n) + s, "%d", &m)] gives back [n] for
    every [int64] value when [s] does not begin with a digit: the
    formatter and the scanner the allocator pairs agree on every number,
    and the scan stops at the end of the printed digits. *)
Theorem parseInt_itoa (z : Z) (s : string) :
  GoFmt.int64_min <= z <= GoFmt.int64_max -> starts_with_digit s = false ->
  parseInt (GoFmt.itoa z ++ s) = Some z.
Proof. exact (scan_int_itoa_app z s). Qed.

(* ------------------------------------------------------------------ *)
(** ** The allocator: the smallest free host number, read back fresh *)

Lemma ip_parts_pieces (addr x : string) :
  In x (ip_parts addr) ->
  GoStr.has_char "." x = false /\ GoStr.has_char "/" x = false.
Proof.
  intros Hx; unfold ip_parts in Hx.
  destruct (StrFacts.split_pieces "." "/" _ x Hx) as [H1 H2]; split; [exact H1|].
  apply H2.
  exact (proj1 (StrFacts.split_pieces "/" "/" _ _ (StrFacts.split0_in "/" addr))).
Qed.

(** The address [allocateClientIP] prints splits back into the three
    prefix parts and the printed number. *)
Lemma ip_parts_fmt (p0 p1 p2 : string) (d : Z) :
  GoStr.has_char "." p0 = false -> GoStr.has_char "/" p0 = false ->
  GoStr.has_char "." p1 = false -> GoStr.has_char "/" p1 = false ->
  GoStr.has_char "." p2 = false -> GoStr.has_char "/" p2 = false ->
  ip_parts ((p0 ++ "." ++ p1 ++ "." ++ p2) ++ "." ++ GoFmt.itoa d ++ "/32")
  = [p0; p1; p2; GoFmt.itoa d].
Proof.
  intros D0 S0 D1 S1 D2 S2.
  assert (Dd : GoStr.has_char "." (GoFmt.itoa d) = false)
    by (apply itoa_no_char; [apply Nat.ltb_lt | apply Nat.eqb_neq]; reflexivity).
  assert (Sd : GoStr.has_char "/" (GoFmt.itoa d) = false)
    by (apply itoa_no_char; [apply Nat.ltb_lt | apply Nat.eqb_neq]; reflexivity).
  set (base := p0 ++ String "." (p1 ++ String "." (p2 ++ String "." (GoFmt.itoa d)))).
  assert (Hb : (p0 ++ "." ++ p1 ++ "." ++ p2) ++ "." ++ GoFmt.itoa d ++ "/32"
               = base ++ String "/" (String "3" (String "2" EmptyString))).
  { unfold base; cbn [String.append].
    repeat (rewrite StrFacts.app_assoc_str; cbn [String.append]); reflexivity. }
  assert (Sb : GoStr.has_char "/" base = false).
  { unfold base.
    repeat (rewrite StrFacts.has_char_app; cbn [GoStr.has_char]).
    rewrite S0, S1, S2, Sd; reflexivity. }
  unfold ip_parts, GoStr.split0; rewrite Hb, StrFacts.split_at_sep by exact Sb.
  simpl hd; unfold base.
  rewrite StrFacts.split_at_sep by exact D0.
  rewrite StrFacts.split_at_sep by exact D1.
  rewrite StrFacts.split_at_sep by exact D2.
  rewrite StrFacts.split_no_sep by exact Dd; reflexivity.
Qed.

Lemma first_unused_least (used : list Z) (k : nat) : forall i N,
  i <= N < i + Z.of_nat k -> is_used used N = false ->
  (forall m, i <= m < N -> is_used used m = true) ->
  first_unused used i k = Some N.
Proof.
  induction k as [|k IH]; intros i N HN Hfree Hless; cbn [first_unused]; [lia|].
  rewrite Nat2Z.inj_succ in HN.
  destruct (Z.eq_dec N i) as [->|Hne]; [now rewrite Hfree|].
  rewrite (Hless i) by lia.
  apply IH; [lia | exact Hfree | intros m Hm; apply Hless; lia].
Qed.

Lemma allocate_at (server : WireGuardServer) (p0 p1 p2 p3 : string) (N : Z) :
  ip_parts (sAddress server) = [p0; p1; p2; p3] ->
  first_unused (usedIPs server) 2 253 = Some N ->
  allocateClientIP server
  = (p0 ++ "." ++ p1 ++ "." ++ p2) ++ "." ++ GoFmt.itoa N ++ "/32" /\
  host_octet (allocateClientIP server) = Some N.
Proof.
  intros Hp Hf.
  assert (Ha : allocateClientIP server
               = (p0 ++ "." ++ p1 ++ "." ++ p2) ++ "." ++ GoFmt.itoa N ++ "/32")
    by (unfold allocateClientIP; rewrite Hp, Hf; reflexivity).
  split; [exact Ha|].
  apply first_unused_some in Hf as [HN _].
  assert (Hpc : forall x, In x [p0; p1; p2; p3] ->
            GoStr.has_char "." x = false /\ GoStr.has_char "/" x = false)
    by (intros x Hx; rewrite <- Hp in Hx; exact (ip_parts_pieces _ x Hx)).
  destruct (Hpc p0) as [D0 S0]; [simpl; tauto|].
  destruct (Hpc p1) as [D1 S1]; [simpl; tauto|].
  destruct (Hpc p2) as [D2 S2]; [simpl; tauto|].
  unfold host_octet; rewrite Ha, ip_parts_fmt by assumption.
  apply scan_int_itoa; unfold GoFmt.int64_min, GoFmt.int64_max; cbn in HN; lia.
Qed.

(** When the server address has four dot-separated parts and [N] is the
    smallest number in [[2,254]] that neither the server's own host number
    nor any client's takes, [allocateClientIP] returns the prefix with
    [N] as fourth part and [/32]; the host number read back from it is
    [N]. *)
Theorem allocate_smallest_free (server : WireGuardServer)
  (p0 p1 p2 p3 : string) (N : Z) :
  ip_parts (sAddress server) = [p0; p1; p2; p3] ->
  2 <= N <= 254 -> ~ In N (usedIPs server) ->
  (forall m, 2 <= m < N -> In m (usedIPs server)) ->
  allocateClientIP server
  = p0 ++ "." ++ p1 ++ "." ++ p2 ++ "." ++ GoFmt.itoa N ++ "/32" /\
  host_octet (allocateClientIP server) = Some N.
Proof.
  intros Hp HN Hfree Hless.
  assert (Hf : first_unused (usedIPs server) 2 253 = Some N).
  { apply first_unused_least; [cbn; lia | |].
    - destruct (is_used (usedIPs server) N) eqn:E; [|reflexivity].
      apply is_used_In in E; contradiction.
    - intros m Hm; apply is_used_In, Hless, Hm. }
  destruct (allocate_at server p0 p1 p2 p3 N Hp Hf) as [Ha Ho].
  split; [|exact Ho].
  rewrite Ha; now rewrite <- !StrFacts.app_assoc_str.
Qed.

Lemma allocate_fresh (server : WireGuardServer) (p0 p1 p2 p3 : string) :
  ip_parts (sAddress server) = [p0; p1; p2; p3] ->
  (exists n, 2 <= n <= 254 /\ ~ In n (usedIPs server)) ->
  exists N, 2 <= N <= 254 /\ ~ In N (usedIPs server) /\
    host_octet (allocateClientIP server) = Some N.
Proof.
  intros Hp (n & Hn & Hfree).
  destruct (first_unused (usedIPs server) 2 253) as [N|] eqn:Hf.
  - destruct (allocate_at server p0 p1 p2 p3 N Hp Hf) as [_ Ho].
    apply first_unused_some in Hf as [HN Hu].
    exists N; repeat split; [cbn in HN; lia | cbn in HN; lia | | exact Ho].
    intros HI; apply is_used_In in HI; congruence.
  - exfalso; apply Hfree, is_used_In, (first_unused_none _ 253 2 Hf); lia.
Qed.

(** While a host number in [[2,254]] is free, the address
    [allocateClientIP] returns reads back (through the same parsing the
    allocator applies to existing addresses) as a number in that range
    that the server and its clients do not use. *)
Theorem allocate_fresh_octet (server : WireGuardServer) (p0 p1 p2 p3 : string) :
  ip_parts (sAddress server) = [p0; p1; p2; p3] ->
  (exists n, 2 <= n <= 254 /\ ~ In n (usedIPs server)) ->
  exists N, 2 <= N <= 254 /\ ~ In N (usedIPs server) /\
    host_octet (allocateClientIP server) = Some N.
Proof. exact (allocate_fresh server p0 p1 p2 p3). Qed.



(* ------------------------------------------------------------------ *)
(** ** What the in-place operations never do *)

(** [UpdateServer], [AddClient], [UpdateClient] and [DeleteClient] never
    add, remove, reorder or rename a server: the list of server IDs is the
    same afterwards, whatever the outcome. *)
Theorem in_place_ops_keep_server_ids (o : Oracle) (op : Op) (st : St) :
  match op with
  | OpCreateServer _ | OpDeleteServer _ => True
  | _ => map sID (Servers (config (snd (run_op o op st))))
         = map sID (Servers (config st))
  end.
Proof.
  destruct op; [exact I | | exact I | | |]; unfold_service; split_matches; cbn;
    try reflexivity.
  all: match goal with
       | E : find_client _ _ _ = Some _ |- _ =>
           apply find_client_some in E as (Hi & _ & _ & _)
       | E : find_first _ _ = Some _ |- _ =>
           apply find_first_some in E as [Hi Hid]; apply String.eqb_eq in Hid
       end.
  all: erewrite map_replace_nth; [reflexivity | exact Hi | cbn; try congruence].
  all: reflexivity.
Qed.

(** Only [DeleteServer] calls [StopInterface]: every other operation
    only appends to the trace, and never a stop, even an [UpdateServer]
    that disables a running server. *)
Theorem only_DeleteServer_stops (o : Oracle) (op : Op) (st : St) :
  (forall id, op <> OpDeleteServer id) ->
  exists pre, trace (snd (run_op o op st)) = (trace st ++ pre)%list /\
    forall tag, ~ In (EvStop tag) pre.
Proof.
  intros Hop; destruct op; [| | now destruct (Hop id) | | |];
    unfold_service; split_matches; cbn;
    first
      [ exists []; split; [symmetry; apply app_nil_r | intros ? []]
      | eexists; split;
        [ rewrite <- app_assoc; reflexivity
        | intros tag H; cbn in H; intuition discriminate ] ].
Qed.

(* ------------------------------------------------------------------ *)
(** ** Witnesses of the further properties *)

(** Side conditions on concrete lists of IDs and host numbers. *)
Ltac distinct_lits :=
  vm_compute; repeat (constructor || (intro; vm_compute in *; intuition discriminate)).

Lemma GetServer_lookup_witness :
  (forall s, In s (Servers (config stB)) -> GetServer (sID s) stB = (Ok s, stB)) /\
  (forall id, ~ In id (map sID (Servers (config stB))) ->
   GetServer id stB = (Err ErrNotFound, stB)).
Proof. apply (GetServer_lookup stB); distinct_lits. Defined.

Lemma CreateServer_then_GetServer_witness :
  let st' := snd (CreateServer (world true) (server0 "10.9.0.1/24" []) stB) in
  GetServer (o_uuid (world true) (S (step stB))) st'
  = (Ok (created_server (server0 "10.9.0.1/24" []) (mkKeyPair "priv0" "pub0")
           (o_uuid (world true) (S (step stB)))
           (o_now (world true) (S (S (step stB))))
           (o_now (world true) (S (S (S (step stB)))))), st').
Proof.
  apply (CreateServer_then_GetServer (world true) stB (server0 "10.9.0.1/24" [])
           (mkKeyPair "priv0" "pub0")); [reflexivity | distinct_lits].
Defined.

Lemma DeleteServer_keeps_order_witness :
  let '(r, st') := DeleteServer (world true) (sID srvA) stB in
  Servers (config st') = ([] ++ [srvB])%list /\
  r = (if o_write (world true) (step stB) then Ok tt else Err ErrWrite) /\
  (sEnabled srvA = false ->
   trace st' = (trace stB ++ [EvSet ([] ++ [srvB]);
                              EvSave (mkConfig ([] ++ [srvB]))
                                (o_write (world true) (step stB))])%list).
Proof.
  apply (DeleteServer_keeps_order (world true) stB [] [srvB] srvA);
    [distinct_lits | reflexivity].
Defined.

Lemma DeleteClient_keeps_order_witness :
  let '(r, st') := DeleteClient (world true) (sID srvB) (cID cb1) stB in
  Servers (config st') = ([srvA] ++ with_clients srvB ([] ++ [cb2]) :: [])%list /\
  r = (if o_write (world true) (step stB) then Ok tt else Err ErrWrite).
Proof.
  apply (DeleteClient_keeps_order (world true) stB [srvA] [] srvB [] [cb2] cb1);
    [distinct_lits | reflexivity | reflexivity | intros []].
Defined.

Lemma AddClient_DeleteClient_roundtrip_witness :
  let st1 := snd (AddClient (world true) (sID srvB) (client0 "") stB) in
  Servers (config (snd (DeleteClient (world true) (sID srvB)
                          (o_uuid (world true) (S (S (step stB)))) st1)))
  = Servers (config stB).
Proof.
  apply (AddClient_DeleteClient_roundtrip (world true) stB srvB 1 (client0 "")
           (mkKeyPair "priv0" "pub0") "psk1");
    [distinct_lits | reflexivity | reflexivity | reflexivity | distinct_lits].
Defined.

Lemma CreateServer_DeleteServer_roundtrip_witness :
  let st1 := snd (CreateServer (world true) (server0 "10.9.0.1/24" []) stB) in
  Servers (config (snd (DeleteServer (world true) (o_uuid (world true) (S (step stB))) st1)))
  = Servers (config stB).
Proof.
  apply (CreateServer_DeleteServer_roundtrip (world true) stB (server0 "10.9.0.1/24" [])
           (mkKeyPair "priv0" "pub0")); [reflexivity | distinct_lits].
Defined.

Lemma run_op_keeps_ids_distinct_witness :
  ids_distinct (config (snd (run_op (world true) (OpAddClient "B" (client0 "")) stB))).
Proof.
  apply (run_op_keeps_ids_distinct (world true) (OpAddClient "B" (client0 "")) stB).
  - distinct_lits.
  - distinct_lits.
  - intros s Hs; vm_compute in Hs; destruct Hs as [<-|[<-|[]]]; distinct_lits.
Defined.

Lemma parseInt_itoa_witness : parseInt (GoFmt.itoa (-42) ++ "/32") = Some (-42).
Proof.
  apply (parseInt_itoa (-42) "/32");
    [unfold GoFmt.int64_min, GoFmt.int64_max; lia | reflexivity].
Defined.

Lemma allocate_smallest_free_witness :
  let server := server0 "10.0.0.1/24" [client0 "10.0.0.2/32"; client0 "10.0.0.4/32"] in
  allocateClientIP server
  = "10" ++ "." ++ "0" ++ "." ++ "0" ++ "." ++ GoFmt.itoa 3 ++ "/32" /\
  host_octet (allocateClientIP server) = Some 3.
Proof.
  apply (allocate_smallest_free
           (server0 "10.0.0.1/24" [client0 "10.0.0.2/32"; client0 "10.0.0.4/32"])
           "10" "0" "0" "1" 3).
  - vm_compute; reflexivity.
  - lia.
  - distinct_lits.
  - intros m Hm; replace m with 2 by lia; vm_compute; tauto.
Defined.

Lemma allocate_fresh_octet_witness :
  exists N, 2 <= N <= 254 /\ ~ In N (usedIPs srvB) /\
    host_octet (allocateClientIP srvB) = Some N.
Proof.
  apply (allocate_fresh_octet srvB "10" "1" "0" "1").
  - vm_compute; reflexivity.
  - exists 4; split; [lia | distinct_lits].
Defined.


Lemma only_DeleteServer_stops_witness :
  exists pre, trace (snd (run_op (world true) (OpUpdateServer draftA) stA))
              = (trace stA ++ pre)%list /\
    forall tag, ~ In (EvStop tag) pre.
Proof.
  apply (only_DeleteServer_stops (world true) (OpUpdateServer draftA) stA).
  intros id; discriminate.
Defined.
